(** * Interactive remote shell sessions (CA1/P2 and CA1/P3)

    A shallow embedding of the three [interactive_shell] functions found in
    [CA1/P2/admin_connection.py], [CA1/P2/user_connection.py] and
    [CA1/P3/cluster_system_health_monitor.py], together with the Python
    built-ins they rely on, and the properties of the session loop and of
    the keystroke line assembler that is written inline in the P2 variants.

    Python [str] values are modelled as [string]; a character is a code
    point in the range U+0000..U+00FF.  The outside world (what
    [select.select], [channel.recv], [sys.stdin.read] and [channel.send]
    do on each turn of the loop) is a list of [wakeup] values. *)

From Stdlib Require Import Strings.String Strings.Ascii Lists.List.
From Stdlib Require Import Bool.Bool Arith.Arith ZArith.ZArith Lia.
From Stdlib Require Import Init.Byte.
Import ListNotations.

Local Open Scope list_scope.

(** ** Python built-ins used by the sources *)

Module Py.

(** [str.isspace] on one character: the code points below 256 that
    CPython classifies as whitespace. *)
Definition isspace (c : ascii) : bool :=
  let n := nat_of_ascii c in
  ((9 <=? n) && (n <=? 13)) || ((28 <=? n) && (n <=? 32))
  || (n =? 133) || (n =? 160).

(** [str.isprintable] on one character: everything except the control
    characters (Cc), the no-break space and the soft hyphen. *)
Definition isprintable_char (c : ascii) : bool :=
  let n := nat_of_ascii c in
  ((32 <=? n) && (n <=? 126)) || ((161 <=? n) && negb (n =? 173)).

(** [s.isprintable()]: every character is printable (true for [""]). *)
Fixpoint isprintable (s : string) : bool :=
  match s with
  | EmptyString => true
  | String c r => isprintable_char c && isprintable r
  end.

Fixpoint lstrip (s : string) : string :=
  match s with
  | EmptyString => EmptyString
  | String c r => if isspace c then lstrip r else s
  end.

Fixpoint rstrip (s : string) : string :=
  match s with
  | EmptyString => EmptyString
  | String c r =>
      match rstrip r with
      | EmptyString => if isspace c then EmptyString else String c EmptyString
      | r' => String c r'
      end
  end.

(** [s.strip()] *)
Definition strip (s : string) : string := rstrip (lstrip s).

(** Truth value of a [str] in a condition: non-empty. *)
Definition truthy (s : string) : bool :=
  match s with EmptyString => false | String _ _ => true end.

(** [s[:stop]], with Python's treatment of a negative [stop] (counted
    from the end) and its clamping to the bounds of [s]. *)
Definition slice_to (s : string) (stop : Z) : string :=
  let n := Z.of_nat (String.length s) in
  let e := if (stop <? 0)%Z then Z.max 0 (n + stop) else Z.min stop n in
  substring 0 (Z.to_nat e) s.

(** [c in l] for a list of [str] *)
Definition str_in (c : string) (l : list string) : bool :=
  existsb (String.eqb c) l.

(** One-character literals of the sources. *)
Definition chr (n : nat) : string := String (ascii_of_nat n) EmptyString.
Definition x1d : string := chr 29.   (* '\x1d', Ctrl+] *)
Definition cr : string := chr 13.    (* '\r' *)
Definition x7f : string := chr 127.  (* '\x7f' *)
Definition bs : string := chr 8.     (* '\b' *)
Definition nl : string := chr 10.    (* '\n' *)

(** [str.lower] on one character: the cased code points below 256. *)
Definition lower_char (c : ascii) : ascii :=
  let n := nat_of_ascii c in
  if ((65 <=? n) && (n <=? 90))
     || ((192 <=? n) && (n <=? 222) && negb (n =? 215))
  then ascii_of_nat (n + 32) else c.

(** [s.lower()] *)
Fixpoint lower (s : string) : string :=
  match s with
  | EmptyString => EmptyString
  | String c r => String (lower_char c) (lower r)
  end.

(** [s.startswith(prefix)] *)
Fixpoint startswith (s prefix : string) {struct prefix} : bool :=
  match prefix with
  | EmptyString => true
  | String p ps =>
      match s with
      | EmptyString => false
      | String c cs => Ascii.eqb c p && startswith cs ps
      end
  end.

(** [s.split()] with [word] the characters of the word being read:
    runs of whitespace separate the words and give no empty word. *)
Fixpoint split_from (word : string) (s : string) : list string :=
  match s with
  | EmptyString => if truthy word then [word] else []
  | String c r =>
      if isspace c
      then (if truthy word then word :: split_from EmptyString r
            else split_from EmptyString r)
      else split_from (word ++ String c EmptyString) r
  end.

(** [s.split()] *)
Definition split (s : string) : list string := split_from EmptyString s.

(** [l[start:]] on a list, with Python's treatment of a negative
    [start] and its clamping to the bounds of [l]. *)
Definition list_slice_from {A : Type} (l : list A) (start : Z) : list A :=
  let n := Z.of_nat (List.length l) in
  let b := if (start <? 0)%Z then Z.max 0 (n + start) else Z.min start n in
  skipn (Z.to_nat b) l.

End Py.

(** ** The environment of a session *)

(** A [termios] attribute list, as returned by [termios.tcgetattr]. *)
Record termios_attrs := {
  iflag : N; oflag : N; cflag : N; lflag : N;
  ispeed : N; ospeed : N; cc : list N
}.

(** Calls that reach the terminal device. *)
Inductive tty_call :=
| TcGetAttr
| SetRaw
| TcSetAttr (a : termios_attrs).

(** The local terminal behind [sys.stdin]: whether it is a terminal at
    all, its current attributes, and the calls made on it so far. *)
Record terminal := {
  is_tty : bool;
  attrs : termios_attrs;
  calls : list tty_call
}.

(** What was handed to [sys.stdout]. *)
Inductive out :=
| Write (text : string)      (* sys.stdout.write(text) *)
| Print (text : string).     (* print(text) *)

(** The devices a session talks to: the terminal, the arguments of
    [channel.send] so far, and the output so far (oldest first). *)
Record io := {
  term : terminal;
  sent : list string;
  stdout : list out
}.

(** Outcome of [channel.recv(1024)]. *)
Inductive recv_result :=
| RecvBytes (data : list byte)   (* returned [data]; [b''] when closed *)
| RecvTimeout                    (* raised socket.timeout *)
| RecvError.                     (* raised anything else *)

(** Outcome of [channel.send(char)], should it be called. *)
Inductive send_result := SendOk | SendError.

(** Outcome of [sys.stdin.read(1)]: a string of at most one character
    ([None] is [''], end of input), or an exception. *)
Inductive read_result :=
| ReadStr (char : option ascii) (snd : send_result)
| ReadError.

(** One return of [select.select([channel, sys.stdin], [], [])]: it
    raises, or it yields the list [r]; [chan] is [Some] when
    [channel in r] and [kbd] is [Some] when [sys.stdin in r], each with
    what the read on that source then does. *)
Inductive wakeup :=
| SelectError
| Ready (chan : option recv_result) (kbd : option read_result).

(** How one turn of [while True] ends. *)
Inductive flow := Next | Continue | Break | Raise.

(** How the loop stands after the wakeups seen so far. *)
Inductive loop_exit := Waiting | Broke | Threw.

(** How a call of [interactive_shell] stands. *)
Inductive status :=
| SetupRaised   (* the exception of [tcgetattr] left the function *)
| Blocked       (* inside [select.select], waiting *)
| Returned      (* left through [break], after [finally] *)
| Raised.       (* an exception left the function, after [finally] *)

Definition py_str (c : option ascii) : string :=
  match c with
  | None => EmptyString
  | Some a => String a EmptyString
  end.

Definition do_write (text : string) (d : io) : io :=
  {| term := term d; sent := sent d; stdout := stdout d ++ [Write text] |}.

Definition do_print (text : string) (d : io) : io :=
  {| term := term d; sent := sent d; stdout := stdout d ++ [Print text] |}.

Definition do_send (char : string) (d : io) : io :=
  {| term := term d; sent := sent d ++ [char]; stdout := stdout d |}.

Definition with_term (t : terminal) (d : io) : io :=
  {| term := t; sent := sent d; stdout := stdout d |}.

(** State of a P2 session: the local [command_buffer], the list object
    [commands_log] shared with the caller, and the devices. *)
Record shell_state := {
  command_buffer : string;
  commands_log : list string;
  dev : io
}.

(** ** CA1/P2/admin_connection.py *)

Module Admin.
Section Shell.

(** [bytes.decode()]; [None] when it raises [UnicodeDecodeError]. *)
Variable decode : list byte -> option string.
(** The attributes [tty.setraw] installs, from the current ones. *)
Variable raw_of : termios_attrs -> termios_attrs.

(** Lines 10-14.  [tcgetattr] raises when stdin is not a terminal. *)
Definition setup_terminal (t : terminal) : option (termios_attrs * terminal) :=
  if is_tty t then
    let old_attrs := attrs t in
    Some (old_attrs,
          {| is_tty := true; attrs := raw_of (attrs t);
             calls := calls t ++ [TcGetAttr; SetRaw] |})
  else None.

(** Lines 16-18. *)
Definition restore_terminal (old_attrs : termios_attrs) (t : terminal) : terminal :=
  {| is_tty := is_tty t; attrs := old_attrs;
     calls := calls t ++ [TcSetAttr old_attrs] |}.

(** Lines 28-36: the [if channel in r] block. *)
Definition channel_block (chan : option recv_result) (d : io) : flow * io :=
  match chan with
  | None => (Next, d)
  | Some (RecvBytes data) =>
      match data with
      | [] => (Break, d)
      | _ :: _ =>
          match decode data with
          | Some text => (Next, do_write text d)
          | None => (Raise, d)
          end
      end
  | Some RecvTimeout => (Continue, d)
  | Some RecvError => (Raise, d)
  end.

(** Lines 42-49: what is done with [char] once it has been sent. *)
Definition assemble (char : string) (bl : string * list string)
  : string * list string :=
  let '(command_buffer, commands_log) := bl in
  if String.eqb char Py.cr then
    (EmptyString,
     if Py.truthy (Py.strip command_buffer)
     then commands_log ++ [Py.strip command_buffer]
     else commands_log)
  else if Py.str_in char [Py.x7f; Py.bs] then
    (Py.slice_to command_buffer (-1), commands_log)
  else if Py.isprintable char then
    (String.append command_buffer char, commands_log)
  else (command_buffer, commands_log).

(** Lines 37-49: the [if sys.stdin in r] block. *)
Definition stdin_block (kbd : option read_result) (st : shell_state)
  : flow * shell_state :=
  match kbd with
  | None => (Next, st)
  | Some ReadError => (Raise, st)
  | Some (ReadStr c snd) =>
      let char := py_str c in
      if String.eqb char Py.x1d then (Break, st)
      else
        match snd with
        | SendError => (Raise, st)
        | SendOk =>
            let '(b, l) := assemble char (command_buffer st, commands_log st) in
            (Next, {| command_buffer := b; commands_log := l;
                      dev := do_send char (dev st) |})
        end
  end.

(** Lines 27-49: one turn of [while True]. *)
Definition loop_body (st : shell_state) (ev : wakeup) : flow * shell_state :=
  match ev with
  | SelectError => (Raise, st)
  | Ready chan kbd =>
      match channel_block chan (dev st) with
      | (Next, d) =>
          stdin_block kbd
            {| command_buffer := command_buffer st;
               commands_log := commands_log st; dev := d |}
      | (f, d) =>
          (f, {| command_buffer := command_buffer st;
                 commands_log := commands_log st; dev := d |})
      end
  end.

(** Lines 26-49: the loop, over the wakeups the world delivers. *)
Fixpoint while_true (st : shell_state) (evs : list wakeup)
  : loop_exit * shell_state :=
  match evs with
  | [] => (Waiting, st)
  | ev :: rest =>
      match loop_body st ev with
      | (Next, st') | (Continue, st') => while_true st' rest
      | (Break, st') => (Broke, st')
      | (Raise, st') => (Threw, st')
      end
  end.

(** Lines 51-55: the [finally] block. *)
Definition finally_block (old_attrs : termios_attrs) (st : shell_state)
  : shell_state :=
  let log :=
    if Py.truthy (Py.strip (command_buffer st))
    then commands_log st ++ [Py.strip (command_buffer st)]
    else commands_log st in
  let d := with_term (restore_terminal old_attrs (term (dev st))) (dev st) in
  {| command_buffer := command_buffer st;
     commands_log := log;
     dev := do_print (String.append Py.nl "Connection closed.") d |}.

(** Lines 20-55. *)
Definition interactive_shell (commands_log0 : list string) (d : io)
    (evs : list wakeup) : status * shell_state :=
  match setup_terminal (term d) with
  | None =>
      (SetupRaised,
       {| command_buffer := EmptyString; commands_log := commands_log0;
          dev := d |})
  | Some (old_attrs, t) =>
      match while_true {| command_buffer := EmptyString;
                          commands_log := commands_log0;
                          dev := with_term t d |} evs with
      | (Waiting, st) => (Blocked, st)
      | (Broke, st) => (Returned, finally_block old_attrs st)
      | (Threw, st) => (Raised, finally_block old_attrs st)
      end
  end.

End Shell.
End Admin.

(** ** CA1/P2/user_connection.py *)

Module User.
Section Shell.

Variable decode : list byte -> option string.
Variable raw_of : termios_attrs -> termios_attrs.

(** Lines 10-14. *)
Definition setup_terminal (t : terminal) : option (termios_attrs * terminal) :=
  if is_tty t then
    let old_attrs := attrs t in
    Some (old_attrs,
          {| is_tty := true; attrs := raw_of (attrs t);
             calls := calls t ++ [TcGetAttr; SetRaw] |})
  else None.

(** Lines 16-18. *)
Definition restore_terminal (old_attrs : termios_attrs) (t : terminal) : terminal :=
  {| is_tty := is_tty t; attrs := old_attrs;
     calls := calls t ++ [TcSetAttr old_attrs] |}.

(** Lines 28-36. *)
Definition channel_block (chan : option recv_result) (d : io) : flow * io :=
  match chan with
  | None => (Next, d)
  | Some (RecvBytes data) =>
      match data with
      | [] => (Break, d)
      | _ :: _ =>
          match decode data with
          | Some text => (Next, do_write text d)
          | None => (Raise, d)
          end
      end
  | Some RecvTimeout => (Continue, d)
  | Some RecvError => (Raise, d)
  end.

(** Lines 42-49. *)
Definition assemble (char : string) (bl : string * list string)
  : string * list string :=
  let '(command_buffer, commands_log) := bl in
  if String.eqb char Py.cr then
    (EmptyString,
     if Py.truthy (Py.strip command_buffer)
     then commands_log ++ [Py.strip command_buffer]
     else commands_log)
  else if Py.str_in char [Py.x7f; Py.bs] then
    (Py.slice_to command_buffer (-1), commands_log)
  else if Py.isprintable char then
    (String.append command_buffer char, commands_log)
  else (command_buffer, commands_log).

(** Lines 37-49. *)
Definition stdin_block (kbd : option read_result) (st : shell_state)
  : flow * shell_state :=
  match kbd with
  | None => (Next, st)
  | Some ReadError => (Raise, st)
  | Some (ReadStr c snd) =>
      let char := py_str c in
      if String.eqb char Py.x1d then (Break, st)
      else
        match snd with
        | SendError => (Raise, st)
        | SendOk =>
            let '(b, l) := assemble char (command_buffer st, commands_log st) in
            (Next, {| command_buffer := b; commands_log := l;
                      dev := do_send char (dev st) |})
        end
  end.

(** Lines 27-49. *)
Definition loop_body (st : shell_state) (ev : wakeup) : flow * shell_state :=
  match ev with
  | SelectError => (Raise, st)
  | Ready chan kbd =>
      match channel_block chan (dev st) with
      | (Next, d) =>
          stdin_block kbd
            {| command_buffer := command_buffer st;
               commands_log := commands_log st; dev := d |}
      | (f, d) =>
          (f, {| command_buffer := command_buffer st;
                 commands_log := commands_log st; dev := d |})
      end
  end.

(** Lines 26-49. *)
Fixpoint while_true (st : shell_state) (evs : list wakeup)
  : loop_exit * shell_state :=
  match evs with
  | [] => (Waiting, st)
  | ev :: rest =>
      match loop_body st ev with
      | (Next, st') | (Continue, st') => while_true st' rest
      | (Break, st') => (Broke, st')
      | (Raise, st') => (Threw, st')
      end
  end.

(** Lines 51-55. *)
Definition finally_block (old_attrs : termios_attrs) (st : shell_state)
  : shell_state :=
  let log :=
    if Py.truthy (Py.strip (command_buffer st))
    then commands_log st ++ [Py.strip (command_buffer st)]
    else commands_log st in
  let d := with_term (restore_terminal old_attrs (term (dev st))) (dev st) in
  {| command_buffer := command_buffer st;
     commands_log := log;
     dev := do_print (String.append Py.nl "Connection closed.") d |}.

(** Lines 20-55. *)
Definition interactive_shell (commands_log0 : list string) (d : io)
    (evs : list wakeup) : status * shell_state :=
  match setup_terminal (term d) with
  | None =>
      (SetupRaised,
       {| command_buffer := EmptyString; commands_log := commands_log0;
          dev := d |})
  | Some (old_attrs, t) =>
      match while_true {| command_buffer := EmptyString;
                          commands_log := commands_log0;
                          dev := with_term t d |} evs with
      | (Waiting, st) => (Blocked, st)
      | (Broke, st) => (Returned, finally_block old_attrs st)
      | (Threw, st) => (Raised, finally_block old_attrs st)
      end
  end.

End Shell.
End User.

(** ** CA1/P3/cluster_system_health_monitor.py

    This variant takes the channel only: it has no [command_buffer] and
    no [commands_log], so its state is the devices alone. *)

Module Cluster.
Section Shell.

Variable decode : list byte -> option string.
Variable raw_of : termios_attrs -> termios_attrs.

(** Lines 179-187. *)
Definition channel_block (chan : option recv_result) (d : io) : flow * io :=
  match chan with
  | None => (Next, d)
  | Some (RecvBytes data) =>
      match data with
      | [] => (Break, d)
      | _ :: _ =>
          match decode data with
          | Some text => (Next, do_write text d)
          | None => (Raise, d)
          end
      end
  | Some RecvTimeout => (Continue, d)
  | Some RecvError => (Raise, d)
  end.

(** Lines 189-193. *)
Definition stdin_block (kbd : option read_result) (d : io) : flow * io :=
  match kbd with
  | None => (Next, d)
  | Some ReadError => (Raise, d)
  | Some (ReadStr c snd) =>
      let char := py_str c in
      if String.eqb char Py.x1d then (Break, d)
      else
        match snd with
        | SendError => (Raise, d)
        | SendOk => (Next, do_send char d)
        end
  end.

(** Lines 178-193. *)
Definition loop_body (d : io) (ev : wakeup) : flow * io :=
  match ev with
  | SelectError => (Raise, d)
  | Ready chan kbd =>
      match channel_block chan d with
      | (Next, d') => stdin_block kbd d'
      | (f, d') => (f, d')
      end
  end.

(** Lines 177-193. *)
Fixpoint while_true (d : io) (evs : list wakeup) : loop_exit * io :=
  match evs with
  | [] => (Waiting, d)
  | ev :: rest =>
      match loop_body d ev with
      | (Next, d') | (Continue, d') => while_true d' rest
      | (Break, d') => (Broke, d')
      | (Raise, d') => (Threw, d')
      end
  end.

(** Lines 194-196. *)
Definition finally_block (old_attrs : termios_attrs) (d : io) : io :=
  let t := term d in
  let d' := with_term {| is_tty := is_tty t; attrs := old_attrs;
                         calls := calls t ++ [TcSetAttr old_attrs] |} d in
  do_print (String.append Py.nl "Shell session ended.") d'.

(** Lines 172-196. *)
Definition interactive_shell (d : io) (evs : list wakeup) : status * io :=
  if is_tty (term d) then
    let old_attrs := attrs (term d) in
    let t := {| is_tty := true; attrs := raw_of (attrs (term d));
                calls := calls (term d) ++ [TcGetAttr; SetRaw] |} in
    match while_true (with_term t d) evs with
    | (Waiting, d') => (Blocked, d')
    | (Broke, d') => (Returned, finally_block old_attrs d')
    | (Threw, d') => (Raised, finally_block old_attrs d')
    end
  else (SetupRaised, d).

End Shell.
End Cluster.

(** ** The rest of CA1/P2/admin_connection.py: file transfers and [main] *)

(** Outcome of [input(prompt)]. *)
Inductive input_result :=
| Line (text : string)      (* the line typed, without its newline *)
| InputEOF.                 (* raised EOFError *)

(** Outcome of a call that returns nothing of interest. *)
Inductive call_result :=
| Done
| Fails (msg : string).     (* raised an Exception whose [str] is [msg] *)

(** What [client.invoke_shell] and the session after it do. *)
Inductive shell_env :=
| InvokeFails (msg : string)
| Session (evs : list wakeup) (msg : string).
    (* the wakeups of the session; [msg] is the [str] of the exception
       that leaves [interactive_shell], if one does *)

(** Calls on [ftp_client]. *)
Inductive ftp_call :=
| Get (remotepath localpath : string)
| Put (localpath remotepath : string)
| FtpClose.

(** What the world does during one turn of the command loop. *)
Record turn := {
  typed_line : input_result;
  ftp_does : call_result;
  shell_does : shell_env
}.

(** State of [main]: the list [commands_log], the devices, the calls
    on [ftp_client] so far, and whether [client.close()] was called. *)
Record main_state := {
  log : list string;
  world : io;
  ftp : list ftp_call;
  client_closed : bool
}.

(** The exceptions that are not caught by [except Exception] where
    they arise. *)
Inductive escaped :=
| EOFError
| UnboundLocalError (name : string).

(** How the command loop or [main] stands. *)
Inductive main_status :=
| AwaitingInput            (* inside [input], waiting *)
| InSession                (* inside [interactive_shell], waiting *)
| Finished                 (* [main] returned *)
| Escaped (e : escaped).   (* an exception left [main] *)

Definition say (text : string) (st : main_state) : main_state :=
  {| log := log st; world := do_print text (world st); ftp := ftp st;
     client_closed := client_closed st |}.

Definition prompt (text : string) (st : main_state) : main_state :=
  {| log := log st; world := do_write text (world st); ftp := ftp st;
     client_closed := client_closed st |}.

Definition ftp_do (c : ftp_call) (st : main_state) : main_state :=
  {| log := log st; world := world st; ftp := ftp st ++ [c];
     client_closed := client_closed st |}.

Definition log_append (entry : string) (st : main_state) : main_state :=
  {| log := log st ++ [entry]; world := world st; ftp := ftp st;
     client_closed := client_closed st |}.

Definition client_close (st : main_state) : main_state :=
  {| log := log st; world := world st; ftp := ftp st; client_closed := true |}.

Module AdminMain.
Section Main.

Variable decode : list byte -> option string.
Variable raw_of : termios_attrs -> termios_attrs.

Local Infix "+s" := String.append (at level 60, right associativity).

(** Lines 57-64. *)
Definition download_file (res : call_result) (local_path remote_path : string)
    (st : main_state) : main_state :=
  let st1 := ftp_do (Get remote_path local_path) st in
  match res with
  | Done =>
      log_append ("downloaded " +s remote_path +s " to " +s local_path)
        (say ("File downloaded to " +s local_path +s ".") st1)
  | Fails msg => say ("Error downloading file: " +s msg) st1
  end.

(** Lines 66-73. *)
Definition upload_file (res : call_result) (local_path remote_path : string)
    (st : main_state) : main_state :=
  let st1 := ftp_do (Put local_path remote_path) st in
  match res with
  | Done =>
      log_append ("uploaded " +s local_path +s " to " +s remote_path)
        (say ("File uploaded to " +s remote_path +s ".") st1)
  | Fails msg => say ("Error uploading file: " +s msg) st1
  end.

(** How one turn of the command loop ends. *)
Inductive step :=
| Again (st : main_state)
| Stuck (st : main_state)               (* the session is waiting *)
| Leave (st : main_state)               (* [break] *)
| Throw (msg : string) (st : main_state).

(** Line 96, the prompt. *)
Definition command_prompt : string :=
  Py.nl +s "Enter command (Download/Upload)_file local_path remote_path, or 'shell' to enter interactive shell, or 'exit' to quit: ".

(** Lines 113-115. *)
Definition print_log (st : main_state) : main_state :=
  fold_left (fun acc command => say command acc) (log st)
            (say ("commands log:" +s Py.nl) st).

(** Lines 107-111, once [command.lower() == "shell"]. *)
Definition enter_shell (env : shell_env) (st : main_state) : step :=
  match env with
  | InvokeFails msg => Throw msg st
  | Session evs msg =>
      let st1 := say "Entering interactive shell. Type 'exit' to leave." st in
      let r := Admin.interactive_shell decode raw_of (log st1) (world st1) evs in
      let st2 := {| log := commands_log (snd r); world := dev (snd r);
                    ftp := ftp st1; client_closed := client_closed st1 |} in
      match fst r with
      | Returned => Again st2
      | Blocked => Stuck st2
      | Raised | SetupRaised => Throw msg st2
      end
  end.

(** Lines 96-118: one turn of the command loop. *)
Definition command_turn (t : turn) (st : main_state) : step :=
  let st0 := prompt command_prompt st in
  match typed_line t with
  | InputEOF => Throw "EOF when reading a line" st0
  | Line text =>
      let command := Py.strip text in
      if Py.startswith (Py.lower command) "download_file"
         || Py.startswith (Py.lower command) "upload_file"
      then
        let parts := Py.split command in
        match parts with
        | [operation; local_path; remote_path] =>
            if String.eqb (Py.lower operation) "download_file"
            then Again (download_file (ftp_does t) local_path remote_path st0)
            else if String.eqb (Py.lower operation) "upload_file"
            then Again (upload_file (ftp_does t) local_path remote_path st0)
            else Again st0
        | _ =>
            Again (say "Invalid command format. Please use: <Download/Upload>_file local_path remote_path" st0)
        end
      else if String.eqb (Py.lower command) "shell"
      then enter_shell (shell_does t) st0
      else if String.eqb (Py.lower command) "exit"
      then Leave (print_log st0)
      else Again (say "Invalid command. Type 'Download_file', 'Upload_file', 'shell', or 'exit'." st0)
  end.

(** How the command loop stands after the turns seen so far. *)
Inductive loop_end :=
| NeedInput | InShell | Left | Thrown (msg : string).

(** Lines 95-118: the command loop. *)
Fixpoint command_loop (st : main_state) (turns : list turn)
  : loop_end * main_state :=
  match turns with
  | [] => (NeedInput, st)
  | t :: rest =>
      match command_turn t st with
      | Again st' => command_loop st' rest
      | Stuck st' => (InShell, st')
      | Leave st' => (Left, st')
      | Throw msg st' => (Thrown msg, st')
      end
  end.

(** Lines 83-124: the [try] statement of [main], for the [host] read
    before it; [connect_does] and [sftp_does] are the outcomes of
    [client.connect] and [client.open_sftp]. *)
Definition main_try (host : string) (connect_does sftp_does : call_result)
    (st : main_state) (turns : list turn) : main_status * main_state :=
  let handler msg st' :=
    (Finished, client_close (say (Py.nl +s "Error: " +s msg) st')) in
  match connect_does with
  | Fails msg => handler msg st
  | Done =>
      let st1 := say (Py.nl +s "Connected to " +s host +s "." +s Py.nl) st in
      match sftp_does with
      | Fails msg => handler msg st1
      | Done =>
          let st2 := {| log := []; world := world st1; ftp := ftp st1;
                        client_closed := client_closed st1 |} in
          match command_loop st2 turns with
          | (NeedInput, st') => (AwaitingInput, st')
          | (InShell, st') => (InSession, st')
          | (Left, st') => (Finished, client_close (ftp_do FtpClose st'))
          | (Thrown msg, st') => handler msg st'
          end
      end
  end.

(** Lines 75-124.  [host_in] and [user_in] are what the first two
    [input] calls do; [getpass] prompts on the terminal itself, not on
    standard output, and its result only reaches [client.connect]. *)
Definition main (host_in user_in : input_result)
    (connect_does sftp_does : call_result)
    (st : main_state) (turns : list turn) : main_status * main_state :=
  let st1 := prompt "Server IP/Hostname: " (say "=== Python SSH Client ===" st) in
  match host_in with
  | InputEOF => (Escaped EOFError, st1)
  | Line h =>
      let host := Py.strip h in
      let st2 := prompt "Username: " st1 in
      match user_in with
      | InputEOF => (Escaped EOFError, st2)
      | Line _ =>
          main_try host connect_does sftp_does st2 turns
      end
  end.

End Main.
End AdminMain.

(** ** The rest of CA1/P2/user_connection.py: [main] *)

Module UserMain.
Section Main.

Variable decode : list byte -> option string.
Variable raw_of : termios_attrs -> termios_attrs.

Local Infix "+s" := String.append (at level 60, right associativity).

(** Lines 82-86: the [finally] block.  [commands_log] is the local
    variable, [None] while nothing was assigned to it. *)
Definition finally_block (commands_log : option (list string))
    (st : main_state) : main_status * main_state :=
  let st1 := say ("commands log:" +s Py.nl) st in
  match commands_log with
  | None =>
      (Escaped (UnboundLocalError "commands_log"), st1)
  | Some l =>
      (Finished,
       client_close (fold_left (fun acc command => say command acc) l st1))
  end.

(** Lines 66-86: the [try] statement of [main]. *)
Definition main_try (host : string) (connect_does : call_result)
    (env : shell_env) (st : main_state) : main_status * main_state :=
  let handler msg (commands_log : option (list string)) st' :=
    finally_block commands_log (say (Py.nl +s "Error: " +s msg) st') in
  match connect_does with
  | Fails msg => handler msg None st
  | Done =>
      match env with
      | InvokeFails msg => handler msg None st
      | Session evs msg =>
          let st1 :=
            say (Py.nl +s "Connected to " +s host +s ". Press Ctrl+] to exit."
                 +s Py.nl) st in
          let r := User.interactive_shell decode raw_of [] (world st1) evs in
          let st2 := {| log := commands_log (snd r); world := dev (snd r);
                        ftp := ftp st1; client_closed := client_closed st1 |} in
          match fst r with
          | Blocked => (InSession, st2)
          | Returned => finally_block (Some (commands_log (snd r))) st2
          | Raised | SetupRaised =>
              handler msg (Some (commands_log (snd r))) st2
          end
      end
  end.

(** Lines 58-86. *)
Definition main (host_in user_in : input_result) (connect_does : call_result)
    (env : shell_env) (st : main_state) : main_status * main_state :=
  let st1 := prompt "Server IP/Hostname: " (say "=== Python SSH Client ===" st) in
  match host_in with
  | InputEOF => (Escaped EOFError, st1)
  | Line h =>
      let host := Py.strip h in
      let st2 := prompt "Username: " st1 in
      match user_in with
      | InputEOF => (Escaped EOFError, st2)
      | Line _ =>
          main_try host connect_does env st2
      end
  end.

End Main.
End UserMain.

(** ** The monitoring side of CA1/P3/cluster_system_health_monitor.py *)

Module Monitor.
Section Metrics.

(** Python [float] values: the code stores them, compares them with
    [>] and formats them, nothing else. *)
Variable V : Type.
Variable gt : V -> V -> bool.        (* [a > b] *)
Variable show : V -> string.         (* [a] inside an f-string *)

Local Infix "+s" := String.append (at level 60, right associativity).

(** Line 20. *)
Definition history_length : Z := 60.

(** The dict built at lines 71-78. *)
Record metrics := {
  cpu : V; memory : V; disk : V;
  top_cpu : string; top_mem : string;
  timestamp : string
}.

Inductive level := WARNING | ERROR.

(** The module-level variables of lines 21-28, and what reached the
    logger and [time.sleep]. *)
Record globals := {
  cpu_history : list V;
  mem_history : list V;
  disk_history : list V;
  timestamps : list string;
  last_metrics : option metrics;
  last_warnings : list string;
  records : list (level * string);
  slept : list Z
}.

(** Lines 82-95.  The argument is [None] or a dict with the six keys,
    which is true in a condition. *)
Definition update_history (m : option metrics) (g : globals) : globals :=
  match m with
  | None => g
  | Some metrics =>
      let ts := timestamps g ++ [timestamp metrics] in
      let ch := cpu_history g ++ [cpu metrics] in
      let mh := mem_history g ++ [memory metrics] in
      let dh := disk_history g ++ [disk metrics] in
      if (Z.of_nat (List.length ts) >? history_length)%Z
      then {| cpu_history := Py.list_slice_from ch (- history_length);
              mem_history := Py.list_slice_from mh (- history_length);
              disk_history := Py.list_slice_from dh (- history_length);
              timestamps := Py.list_slice_from ts (- history_length);
              last_metrics := Some metrics;
              last_warnings := last_warnings g;
              records := records g; slept := slept g |}
      else {| cpu_history := ch; mem_history := mh; disk_history := dh;
              timestamps := ts;
              last_metrics := Some metrics;
              last_warnings := last_warnings g;
              records := records g; slept := slept g |}
  end.

(** Lines 133-135 and their two siblings: one threshold test. *)
Definition check (name : string) (value thresh : V) (g : globals) : globals :=
  if gt value thresh then
    let warning :=
      name +s " usage exceeded: " +s show value +s "% > " +s show thresh +s "%" in
    {| cpu_history := cpu_history g; mem_history := mem_history g;
       disk_history := disk_history g; timestamps := timestamps g;
       last_metrics := last_metrics g;
       last_warnings := last_warnings g ++ [warning];
       records := records g ++ [(WARNING, warning)]; slept := slept g |}
  else g.

Definition sleep (seconds : Z) (g : globals) : globals :=
  {| cpu_history := cpu_history g; mem_history := mem_history g;
     disk_history := disk_history g; timestamps := timestamps g;
     last_metrics := last_metrics g; last_warnings := last_warnings g;
     records := records g; slept := slept g ++ [seconds] |}.

Definition clear_warnings (g : globals) : globals :=
  {| cpu_history := cpu_history g; mem_history := mem_history g;
     disk_history := disk_history g; timestamps := timestamps g;
     last_metrics := last_metrics g; last_warnings := [];
     records := records g; slept := slept g |}.

Definition log_error (text : string) (g : globals) : globals :=
  {| cpu_history := cpu_history g; mem_history := mem_history g;
     disk_history := disk_history g; timestamps := timestamps g;
     last_metrics := last_metrics g; last_warnings := last_warnings g;
     records := records g ++ [(ERROR, text)]; slept := slept g |}.

(** What the world does during one turn of the monitoring loop:
    [sample] is the result of [get_server_metrics] ([None] when it
    failed), [plot_does] the outcome of [generate_plot]. *)
Record tick := {
  sample : option metrics;
  plot_does : call_result
}.

(** Lines 126-147: one turn of [while monitoring_active]. *)
Definition monitor_turn (cpu_thresh mem_thresh disk_thresh : V) (interval : Z)
    (t : tick) (g : globals) : globals :=
  match sample t with
  | None => sleep interval g
  | Some metrics =>
      let g1 := update_history (Some metrics) g in
      match plot_does t with
      | Fails msg => sleep 5 (log_error ("Monitoring error: " +s msg) g1)
      | Done =>
          let g2 := clear_warnings g1 in
          let g3 := check "CPU" (cpu metrics) cpu_thresh g2 in
          let g4 := check "Memory" (memory metrics) mem_thresh g3 in
          let g5 := check "Disk" (disk metrics) disk_thresh g4 in
          sleep interval g5
      end
  end.

(** Lines 121-147: the turns made while [monitoring_active] held. *)
Definition monitor_server (cpu_thresh mem_thresh disk_thresh : V)
    (interval : Z) (ticks : list tick) (g : globals) : globals :=
  fold_left (fun acc t => monitor_turn cpu_thresh mem_thresh disk_thresh
                            interval t acc) ticks g.

(** Lines 21-28: the variables when the module is loaded. *)
Definition initial : globals :=
  {| cpu_history := []; mem_history := []; disk_history := [];
     timestamps := []; last_metrics := None; last_warnings := [];
     records := []; slept := [] |}.

End Metrics.
End Monitor.


(** ** Vocabulary of the statements *)

(** The characters of a string, in order. *)
Definition chars (s : string) : list ascii := list_ascii_of_string s.

(** The texts handed to [sys.stdout.write], in order. *)
Fixpoint written (l : list out) : list string :=
  match l with
  | [] => []
  | Write t :: r => t :: written r
  | Print _ :: r => written r
  end.

(** A wakeup on which only [sys.stdin] is ready, [read(1)] returns [c]
    and [channel.send] succeeds. *)
Definition key (c : ascii) : wakeup :=
  Ready None (Some (ReadStr (Some c) SendOk)).

(** Typing the characters of [s], one wakeup each. *)
Definition keystrokes (s : string) : list wakeup := map key (chars s).

(** The assembler of lines 42-49 run over a sequence of characters. *)
Definition feed (keys : list string) (bl : string * list string)
  : string * list string :=
  fold_left (fun acc k => Admin.assemble k acc) keys bl.

(** The test of lines 52-53 applied to a buffer: what is appended. *)
Definition flushed (command_buffer : string) : list string :=
  if Py.truthy (Py.strip command_buffer) then [Py.strip command_buffer] else [].

(** The session is over: [finally] has run. *)
Definition ended (s : status) : bool :=
  match s with Returned | Raised => true | _ => false end.

(** The wakeups on which the loop is left, whatever the state. *)
Definition exits (decode : list byte -> option string) (ev : wakeup) : bool :=
  match ev with
  | SelectError => true
  | Ready (Some RecvError) _ => true
  | Ready (Some RecvTimeout) _ => false
  | Ready (Some (RecvBytes [])) _ => true
  | Ready chan kbd =>
      match chan with
      | Some (RecvBytes data) =>
          match decode data with None => true | Some _ => false end
      | _ => false
      end
      || match kbd with
         | Some ReadError => true
         | Some (ReadStr c snd) =>
             String.eqb (py_str c) Py.x1d
             || match snd with SendError => true | SendOk => false end
         | None => false
         end
  end.

(** What can be seen of a session from outside. *)
Record observation := {
  ending : status;
  to_channel : list string;     (* arguments of channel.send *)
  to_screen : list string;      (* arguments of sys.stdout.write *)
  tty_calls : list tty_call;
  logged : list string          (* entries the session put in a log *)
}.

Definition observe_p2 (r : status * shell_state) : observation :=
  {| ending := fst r;
     to_channel := sent (dev (snd r));
     to_screen := written (stdout (dev (snd r)));
     tty_calls := calls (term (dev (snd r)));
     logged := commands_log (snd r) |}.

(** The P3 variant keeps no log. *)
Definition observe_p3 (r : status * io) : observation :=
  {| ending := fst r;
     to_channel := sent (snd r);
     to_screen := written (stdout (snd r));
     tty_calls := calls (term (snd r));
     logged := [] |}.

(** Both sources handled in one turn: the outcome is that of the stdin
    block run on the state the channel block alone leaves. *)
Definition both_processed (decode : list byte -> option string)
    (st : shell_state) (cr : recv_result) (rr : read_result) : Prop :=
  Admin.loop_body decode st (Ready (Some cr) (Some rr))
  = Admin.stdin_block (Some rr)
      (snd (Admin.loop_body decode st (Ready (Some cr) None))).

(** The three variants cannot be told apart from outside. *)
Definition same_behaviour (decode : list byte -> option string)
    (raw_of : termios_attrs -> termios_attrs) (d : io) (evs : list wakeup)
  : Prop :=
  observe_p2 (Admin.interactive_shell decode raw_of [] d evs)
  = observe_p2 (User.interactive_shell decode raw_of [] d evs)
  /\ observe_p2 (Admin.interactive_shell decode raw_of [] d evs)
     = observe_p3 (Cluster.interactive_shell decode raw_of d evs).

(** A stripped string does not begin with whitespace. *)
Definition starts_clean (s : string) : Prop :=
  match s with
  | EmptyString => True
  | String c _ => Py.isspace c = false
  end.

(** An entry as the sessions produce them. *)
Definition entry_ok (e : string) : Prop :=
  Py.strip e = e /\ e <> EmptyString /\ Py.isprintable e = true.

(** No character handed to [channel.send] is the exit character, and
    each is one [read(1)] result. *)
Definition keys_ok (keys : list string) : Prop :=
  Forall (fun k => k <> Py.x1d /\ String.length k <= 1) keys.

(** [st'] is reached from [st] by sending [keys], in order, feeding them
    to the assembler, and writing [texts]; the terminal is untouched. *)
Definition extends (st st' : shell_state) (keys texts : list string) : Prop :=
  term (dev st') = term (dev st) /\
  sent (dev st') = sent (dev st) ++ keys /\
  stdout (dev st') = stdout (dev st) ++ map Write texts /\
  keys_ok keys /\
  (command_buffer st', commands_log st')
  = feed keys (command_buffer st, commands_log st).

(** *** A sample environment, for concrete runs *)

(** A decoder that accepts ASCII bytes only. *)
Definition decode_ascii (data : list byte) : option string :=
  if forallb (fun b => Byte.to_nat b <? 128) data
  then Some (string_of_list_byte data) else None.

(** Raw mode as a cleared local-flags word. *)
Definition raw_sample (a : termios_attrs) : termios_attrs :=
  {| iflag := iflag a; oflag := oflag a; cflag := cflag a; lflag := 0;
     ispeed := ispeed a; ospeed := ospeed a; cc := cc a |}.

Definition cooked : termios_attrs :=
  {| iflag := 17664; oflag := 5; cflag := 191; lflag := 35387;
     ispeed := 15; ospeed := 15; cc := [3; 28; 127; 21; 4; 0; 1]%N |}.

Definition io_sample : io :=
  {| term := {| is_tty := true; attrs := cooked; calls := [] |};
     sent := []; stdout := [] |}.

(** The successive values of [char] when the characters of [s] are read. *)
Definition typed (s : string) : list string :=
  map (fun c => String c EmptyString) (chars s).

Definition CR : ascii := ascii_of_nat 13.
Definition DEL : ascii := ascii_of_nat 127.
Definition BS : ascii := ascii_of_nat 8.
Definition GS : ascii := ascii_of_nat 29.   (* the exit character, Ctrl+] *)

(** Remote end of stream: [channel.recv] returns [b'']. *)
Definition eof : wakeup := Ready (Some (RecvBytes [])) None.

(** *** Vocabulary for the rest of the programs *)

(** No whitespace in [s]. *)
Fixpoint no_space (s : string) : bool :=
  match s with
  | EmptyString => true
  | String c r => negb (Py.isspace c) && no_space r
  end.

(** A word: non-empty and free of whitespace. *)
Definition is_word (s : string) : bool := Py.truthy s && no_space s.

(** A call on [ftp_client] whose paths are words. *)
Definition ok_call (c : ftp_call) : bool :=
  match c with
  | Get a b | Put a b => is_word a && is_word b
  | FtpClose => true
  end.

(** The line printed before the command log. *)
Definition log_header : out := Print (String.append "commands log:" Py.nl).

(** The last [n] elements of a list. *)
Definition lastn {A : Type} (n : nat) (l : list A) : list A :=
  skipn (List.length l - n) l.

(** The samples that [get_server_metrics] delivered. *)
Definition delivered {V : Type} (ticks : list (Monitor.tick V))
  : list (Monitor.metrics V) :=
  flat_map (fun t => match Monitor.sample V t with
                     | Some m => [m] | None => [] end) ticks.

(** What a wakeup that does not end the loop hands to the channel. *)
Definition key_of (ev : wakeup) : list string :=
  match ev with
  | Ready (Some RecvTimeout) _ => []
  | Ready _ (Some (ReadStr c SendOk)) => [py_str c]
  | _ => []
  end.

(** What a wakeup brings to the screen. *)
Definition text_of (decode : list byte -> option string) (ev : wakeup)
  : list string :=
  match ev with
  | Ready (Some (RecvBytes (x :: data))) _ =>
      match decode (x :: data) with Some t => [t] | None => [] end
  | _ => []
  end.

(** The characters due to the channel, in order, up to the wakeup that
    ends the loop. *)
Fixpoint forwarded (decode : list byte -> option string) (evs : list wakeup)
  : list string :=
  match evs with
  | [] => []
  | ev :: rest =>
      if exits decode ev then [] else key_of ev ++ forwarded decode rest
  end.

(** The texts due to the screen, in order, through the wakeup that ends
    the loop. *)
Fixpoint displayed (decode : list byte -> option string) (evs : list wakeup)
  : list string :=
  match evs with
  | [] => []
  | ev :: rest =>
      text_of decode ev
      ++ (if exits decode ev then [] else displayed decode rest)
  end.


(** The state a turn of the command loop leaves. *)
Definition state_of (s : AdminMain.step) : main_state :=
  match s with
  | AdminMain.Again st | AdminMain.Stuck st | AdminMain.Leave st
  | AdminMain.Throw _ st => st
  end.

Definition is_leave (s : AdminMain.step) : Prop :=
  match s with AdminMain.Leave _ => True | _ => False end.

(** [st'] is reached from [st] by the transfers [calls], the new log
    entries [entries] and the output [outs]; [client.close()] was not
    called in between. *)
Definition main_grows (st st' : main_state) (calls : list ftp_call)
    (entries : list string) (outs : list out) : Prop :=
  ftp st' = ftp st ++ calls
  /\ log st' = log st ++ entries
  /\ stdout (world st') = stdout (world st) ++ outs
  /\ client_closed st' = client_closed st
  /\ Forall (fun c => ok_call c = true /\ c <> FtpClose) calls.

(** The four histories hold the last sixty of the samples [seen], and
    [last_metrics] the latest of them. *)
Definition histories_hold {V : Type} (seen : list (Monitor.metrics V))
    (g : Monitor.globals V) : Prop :=
  Monitor.cpu_history V g = map (Monitor.cpu V) (lastn 60 seen)
  /\ Monitor.mem_history V g = map (Monitor.memory V) (lastn 60 seen)
  /\ Monitor.disk_history V g = map (Monitor.disk V) (lastn 60 seen)
  /\ Monitor.timestamps V g = map (Monitor.timestamp V) (lastn 60 seen)
  /\ Monitor.last_metrics V g = last (map Some seen) None.

(** The warnings on display are at most three and each one went to the
    logger. *)
Definition warnings_sound {V : Type} (g : Monitor.globals V) : Prop :=
  List.length (Monitor.last_warnings V g) <= 3
  /\ Forall (fun w => In (Monitor.WARNING, w) (Monitor.records V g))
            (Monitor.last_warnings V g).

(** A sample with percentages as whole numbers, for concrete runs. *)
Definition sample_metrics (c m d : nat) : Monitor.metrics nat :=
  {| Monitor.cpu := c; Monitor.memory := m; Monitor.disk := d;
     Monitor.top_cpu := "1 root 90.0 1.0 yes";
     Monitor.top_mem := "1 root 90.0 1.0 yes";
     Monitor.timestamp := "12:00:00" |}.

Definition nat_gt (a b : nat) : bool := b <? a.

Definition nat_show (a : nat) : string :=
  String (ascii_of_nat (48 + a / 10)) (String (ascii_of_nat (48 + a mod 10)) "").


(** ** Strings *)

Lemma length_append (a b : string) :
  String.length (a ++ b)%string = String.length a + String.length b.
Proof. induction a as [|c a IH]; simpl; [reflexivity | now rewrite IH]. Qed.

Lemma substring_all_prefix (a b : string) :
  substring 0 (String.length a) (a ++ b)%string = a.
Proof.
  induction a as [|c a IH]; simpl.
  - destruct b; reflexivity.
  - now rewrite IH.
Qed.

Lemma substring_0_length (a : string) (n : nat) :
  String.length (substring 0 n a) = Nat.min n (String.length a).
Proof.
  revert n; induction a as [|c a IH]; intros [|n]; simpl; auto.
Qed.

Lemma slice_last_empty : Py.slice_to EmptyString (-1) = EmptyString.
Proof. reflexivity. Qed.

Lemma slice_last_snoc (a : string) (c : ascii) :
  Py.slice_to (a ++ String c EmptyString)%string (-1) = a.
Proof.
  unfold Py.slice_to. rewrite length_append. simpl String.length.
  replace (Z.to_nat _) with (String.length a).
  - apply substring_all_prefix.
  - simpl. lia.
Qed.

Lemma slice_last_length (a : string) :
  String.length (Py.slice_to a (-1)) = String.length a - 1.
Proof.
  unfold Py.slice_to. rewrite substring_0_length. simpl. lia.
Qed.

Lemma isprintable_append (a b : string) :
  Py.isprintable (a ++ b)%string = Py.isprintable a && Py.isprintable b.
Proof.
  induction a as [|c a IH]; simpl; [reflexivity|].
  now rewrite IH, andb_assoc.
Qed.

Lemma isprintable_substring (s : string) (n m : nat) :
  Py.isprintable s = true -> Py.isprintable (substring n m s) = true.
Proof.
  revert n m; induction s as [|c s IH]; intros n m H.
  - destruct n, m; reflexivity.
  - simpl in H. apply andb_true_iff in H as [Hc Hs].
    destruct n as [|n]; simpl.
    + destruct m as [|m]; simpl; [reflexivity|].
      now rewrite Hc, IH.
    + now apply IH.
Qed.

Lemma isprintable_lstrip (s : string) :
  Py.isprintable s = true -> Py.isprintable (Py.lstrip s) = true.
Proof.
  induction s as [|c s IH]; simpl; intros H; [reflexivity|].
  destruct (Py.isspace c); [|exact H].
  apply andb_true_iff in H as [_ Hs]. now apply IH.
Qed.

Lemma isprintable_rstrip (s : string) :
  Py.isprintable s = true -> Py.isprintable (Py.rstrip s) = true.
Proof.
  induction s as [|c s IH]; simpl; intros H; [reflexivity|].
  apply andb_true_iff in H as [Hc Hs]. specialize (IH Hs).
  destruct (Py.rstrip s) as [|c' r'].
  - destruct (Py.isspace c); simpl; [reflexivity | now rewrite Hc].
  - simpl in *. now rewrite Hc, IH.
Qed.

Lemma isprintable_strip (s : string) :
  Py.isprintable s = true -> Py.isprintable (Py.strip s) = true.
Proof. intros H. apply isprintable_rstrip, isprintable_lstrip, H. Qed.

Lemma isprintable_chars (s : string) (c : ascii) :
  Py.isprintable s = true -> In c (chars s) -> Py.isprintable_char c = true.
Proof.
  induction s as [|a s IH]; simpl; intros H Hin; [contradiction|].
  apply andb_true_iff in H as [Ha Hs].
  destruct Hin as [<-|Hin]; auto.
Qed.

Lemma lstrip_starts_clean (s : string) : starts_clean (Py.lstrip s).
Proof.
  induction s as [|c s IH]; simpl; [exact I|].
  destruct (Py.isspace c) eqn:E; [exact IH | exact E].
Qed.

Lemma lstrip_of_clean (s : string) : starts_clean s -> Py.lstrip s = s.
Proof. destruct s as [|c s]; simpl; [reflexivity|]. now intros ->. Qed.

Lemma rstrip_starts_clean (s : string) :
  starts_clean s -> starts_clean (Py.rstrip s).
Proof.
  destruct s as [|c s]; simpl; [trivial|]. intros H.
  destruct (Py.rstrip s); [rewrite H|]; exact H.
Qed.

Lemma rstrip_idempotent (s : string) : Py.rstrip (Py.rstrip s) = Py.rstrip s.
Proof.
  induction s as [|c s IH]; simpl; [reflexivity|].
  destruct (Py.rstrip s) as [|c' r'] eqn:E.
  - destruct (Py.isspace c) eqn:Ec; simpl; [reflexivity | now rewrite Ec].
  - change (Py.rstrip (String c (String c' r'))) with
      (match Py.rstrip (String c' r') with
       | EmptyString => if Py.isspace c then EmptyString else String c EmptyString
       | r'' => String c r''
       end).
    rewrite IH. reflexivity.
Qed.

Lemma strip_idempotent (s : string) : Py.strip (Py.strip s) = Py.strip s.
Proof.
  unfold Py.strip.
  rewrite (lstrip_of_clean (Py.rstrip (Py.lstrip s))).
  - apply rstrip_idempotent.
  - apply rstrip_starts_clean, lstrip_starts_clean.
Qed.

Lemma truthy_true (s : string) : Py.truthy s = true <-> s <> EmptyString.
Proof. destruct s; simpl; split; congruence. Qed.

(** ** The assembler *)

Lemma assemble_cases (k b : string) (l : list string) :
  Admin.assemble k (b, l) = (EmptyString, l ++ flushed b)
  \/ (exists b', Admin.assemble k (b, l) = (b', l) /\
        (Py.isprintable b = true -> Py.isprintable b' = true)).
Proof.
  unfold Admin.assemble, flushed.
  destruct (String.eqb k Py.cr).
  - left. destruct (Py.truthy (Py.strip b)); [reflexivity|].
    now rewrite app_nil_r.
  - right. destruct (Py.str_in k [Py.x7f; Py.bs]).
    + eexists; split; [reflexivity|]. apply isprintable_substring.
    + destruct (Py.isprintable k) eqn:Ek.
      * eexists; split; [reflexivity|]. intros Hb.
        now rewrite isprintable_append, Hb, Ek.
      * eexists; split; [reflexivity | trivial].
Qed.

Lemma flushed_ok (b : string) :
  Py.isprintable b = true -> Forall entry_ok (flushed b).
Proof.
  intros Hb. unfold flushed.
  destruct (Py.truthy (Py.strip b)) eqn:E; constructor; [|constructor].
  repeat split.
  - apply strip_idempotent.
  - now apply truthy_true.
  - now apply isprintable_strip.
Qed.

Lemma flushed_if (b : string) (l : list string) :
  (if Py.truthy (Py.strip b) then l ++ [Py.strip b] else l) = l ++ flushed b.
Proof.
  unfold flushed. destruct (Py.truthy (Py.strip b)); [reflexivity|].
  now rewrite app_nil_r.
Qed.

Lemma feed_app (k1 k2 : list string) (bl : string * list string) :
  feed (k1 ++ k2) bl = feed k2 (feed k1 bl).
Proof. apply fold_left_app. Qed.

Lemma feed_cons (k : string) (keys : list string) (bl : string * list string) :
  feed (k :: keys) bl = feed keys (Admin.assemble k bl).
Proof. reflexivity. Qed.

Lemma feed_log (keys : list string) (b : string) (l : list string) :
  Py.isprintable b = true ->
  exists added,
    snd (feed keys (b, l)) = l ++ added /\
    Forall entry_ok added /\
    Py.isprintable (fst (feed keys (b, l))) = true.
Proof.
  revert b l; induction keys as [|k keys IH]; intros b l Hb.
  - exists []. simpl. rewrite app_nil_r. auto.
  - rewrite feed_cons.
    destruct (assemble_cases k b l) as [E | (b' & E & Hb')]; rewrite E.
    + destruct (IH EmptyString (l ++ flushed b) eq_refl) as (a & Ha & Hok & Hp).
      exists (flushed b ++ a). rewrite Ha, app_assoc. repeat split; auto.
      apply Forall_app; split; [now apply flushed_ok | exact Hok].
    + apply IH, Hb', Hb.
Qed.

(** The entries added do not depend on what the log held before. *)
Lemma assemble_frame (k b : string) (l : list string) :
  Admin.assemble k (b, l) =
  (fst (Admin.assemble k (b, [])), l ++ snd (Admin.assemble k (b, []))).
Proof.
  unfold Admin.assemble.
  destruct (String.eqb k Py.cr).
  - destruct (Py.truthy (Py.strip b)); simpl; now rewrite ?app_nil_r.
  - destruct (Py.str_in k [Py.x7f; Py.bs]); [|destruct (Py.isprintable k)];
      simpl; now rewrite app_nil_r.
Qed.

Lemma feed_frame (keys : list string) (b : string) (l : list string) :
  feed keys (b, l) = (fst (feed keys (b, [])), l ++ snd (feed keys (b, []))).
Proof.
  revert b l; induction keys as [|k keys IH]; intros b l.
  - simpl. now rewrite app_nil_r.
  - rewrite !feed_cons, (assemble_frame k b l).
    destruct (Admin.assemble k (b, [])) as [b1 a1]. simpl fst; simpl snd.
    rewrite (IH b1 (l ++ a1)), (IH b1 a1). simpl. now rewrite app_assoc.
Qed.

(** ** The loop of the P2 sessions *)

Lemma extends_refl (st st' : shell_state) :
  term (dev st') = term (dev st) -> sent (dev st') = sent (dev st) ->
  stdout (dev st') = stdout (dev st) ->
  command_buffer st' = command_buffer st ->
  commands_log st' = commands_log st ->
  extends st st' [] [].
Proof.
  intros Ht Hs Ho Hb Hl. unfold extends, keys_ok. simpl.
  rewrite !app_nil_r, Hb, Hl. auto.
Qed.

Lemma extends_trans (a b c : shell_state) (k1 k2 t1 t2 : list string) :
  extends a b k1 t1 -> extends b c k2 t2 -> extends a c (k1 ++ k2) (t1 ++ t2).
Proof.
  intros (Ht1 & Hs1 & Ho1 & Hk1 & Hf1) (Ht2 & Hs2 & Ho2 & Hk2 & Hf2).
  unfold extends. repeat split.
  - congruence.
  - now rewrite Hs2, Hs1, app_assoc.
  - now rewrite Ho2, Ho1, map_app, app_assoc.
  - apply Forall_app; split; assumption.
  - now rewrite feed_app, <- Hf1, Hf2.
Qed.

Lemma py_str_length (c : option ascii) : String.length (py_str c) <= 1.
Proof. destruct c; simpl; lia. Qed.

Lemma admin_stdin_block (kbd : option read_result) (st : shell_state)
    (f : flow) (st' : shell_state) :
  Admin.stdin_block kbd st = (f, st') ->
  exists keys,
    extends st st' keys [] /\
    (f = Next \/ (keys = [] /\ (f = Break \/ f = Raise))).
Proof.
  unfold Admin.stdin_block. intros H.
  destruct kbd as [[c snd|]|].
  - destruct (String.eqb (py_str c) Py.x1d) eqn:Ex.
    + injection H as <- <-. exists []. split; [now apply extends_refl | auto].
    + destruct snd.
      * destruct (Admin.assemble _ _) as [b l] eqn:Ea.
        injection H as <- <-. exists [py_str c]. split; [|auto].
        unfold extends, keys_ok; simpl. split; [reflexivity|].
        split; [reflexivity|]. split; [now rewrite app_nil_r|]. split.
        -- constructor; [|constructor]. split.
           ++ now apply String.eqb_neq.
           ++ apply py_str_length.
        -- now rewrite <- Ea.
      * injection H as <- <-. exists []. split; [now apply extends_refl | auto].
  - injection H as <- <-. exists []. split; [now apply extends_refl | auto].
  - injection H as <- <-. exists []. split; [now apply extends_refl | auto].
Qed.

Lemma admin_channel_block (decode : list byte -> option string)
    (chan : option recv_result) (d : io) (f : flow) (d' : io) :
  Admin.channel_block decode chan d = (f, d') ->
  term d' = term d /\ sent d' = sent d /\
  exists texts, stdout d' = stdout d ++ map Write texts /\
                (f = Next \/ texts = []).
Proof.
  unfold Admin.channel_block. intros H.
  destruct chan as [[[|x data]| |]|].
  2: destruct (decode (x :: data)) as [text|].
  2: { injection H as <- <-. simpl. repeat split. exists [text]. auto. }
  all: injection H as <- <-; repeat split; exists []; simpl;
    rewrite app_nil_r; auto.
Qed.

Lemma admin_loop_body (decode : list byte -> option string)
    (st : shell_state) (ev : wakeup) (f : flow) (st' : shell_state) :
  Admin.loop_body decode st ev = (f, st') ->
  exists keys texts,
    extends st st' keys texts /\ (f = Next \/ keys = []).
Proof.
  unfold Admin.loop_body. intros H. destruct ev as [|chan kbd].
  - injection H as <- <-. exists [], []. split; [now apply extends_refl | auto].
  - destruct (Admin.channel_block decode chan (dev st)) as [f1 d] eqn:Ec.
    destruct (admin_channel_block _ _ _ _ _ Ec) as (Ht & Hs & texts & Ho & Hf).
    assert (Hmid : extends st
              {| command_buffer := command_buffer st;
                 commands_log := commands_log st; dev := d |} [] texts).
    { unfold extends, keys_ok; simpl. rewrite app_nil_r. auto. }
    destruct f1.
    + destruct (admin_stdin_block _ _ _ _ H) as (keys & He & Hk).
      exists keys, texts. split.
      * rewrite <- (app_nil_r texts), <- (app_nil_l keys).
        eapply extends_trans; eassumption.
      * destruct Hk as [Hk | [Hk _]]; auto.
    + injection H as <- <-. exists [], texts. auto.
    + injection H as <- <-. exists [], texts. auto.
    + injection H as <- <-. exists [], texts. auto.
Qed.

Lemma admin_loop_exits (decode : list byte -> option string)
    (st : shell_state) (ev : wakeup) :
  match fst (Admin.loop_body decode st ev) with
  | Break | Raise => exits decode ev = true
  | Next | Continue => exits decode ev = false
  end.
Proof.
  destruct ev as [|chan kbd]; [reflexivity|].
  unfold Admin.loop_body, Admin.channel_block, Admin.stdin_block, exits.
  destruct chan as [[[|x data]| |]|]; try reflexivity.
  - destruct (decode (x :: data)); [|reflexivity].
    destruct kbd as [[c snd|]|]; try reflexivity.
    destruct (String.eqb (py_str c) Py.x1d); [reflexivity|].
    destruct snd; [|reflexivity].
    destruct (Admin.assemble _ _); reflexivity.
  - destruct kbd as [[c snd|]|]; try reflexivity.
    destruct (String.eqb (py_str c) Py.x1d); [reflexivity|].
    destruct snd; [|reflexivity].
    destruct (Admin.assemble _ _); reflexivity.
Qed.

Lemma admin_while_true (decode : list byte -> option string)
    (evs : list wakeup) (st : shell_state) :
  exists keys texts,
    extends st (snd (Admin.while_true decode st evs)) keys texts.
Proof.
  revert st; induction evs as [|ev evs IH]; intros st.
  - exists [], []. now apply extends_refl.
  - simpl. destruct (Admin.loop_body decode st ev) as [f st1] eqn:E.
    destruct (admin_loop_body _ _ _ _ _ E) as (k1 & t1 & H1 & _).
    destruct f.
    1,2: destruct (IH st1) as (k2 & t2 & H2);
         exists (k1 ++ k2), (t1 ++ t2); eapply extends_trans; eassumption.
    all: exists k1, t1; exact H1.
Qed.

Lemma admin_while_status (decode : list byte -> option string)
    (evs : list wakeup) (st : shell_state) :
  fst (Admin.while_true decode st evs) = Waiting
  <-> existsb (exits decode) evs = false.
Proof.
  revert st; induction evs as [|ev evs IH]; intros st.
  - simpl. tauto.
  - simpl. pose proof (admin_loop_exits decode st ev) as Hx.
    destruct (Admin.loop_body decode st ev) as [f st1]. simpl in Hx.
    destruct f; rewrite Hx; simpl; try apply IH; split; discriminate.
Qed.

(** Wakeups that arrive after the loop was left are not looked at, and
    the loop goes on from where it stood otherwise. *)
Lemma admin_while_app (decode : list byte -> option string)
    (evs1 evs2 : list wakeup) (st : shell_state) :
  Admin.while_true decode st (evs1 ++ evs2) =
  match Admin.while_true decode st evs1 with
  | (Waiting, st1) => Admin.while_true decode st1 evs2
  | r => r
  end.
Proof.
  revert st; induction evs1 as [|ev evs1 IH]; intros st; simpl.
  - reflexivity.
  - destruct (Admin.loop_body decode st ev) as [[] st1]; auto.
Qed.

(** What a started P2 session has done once it has seen [evs]. *)
Lemma admin_session (decode : list byte -> option string)
    (raw_of : termios_attrs -> termios_attrs)
    (log0 : list string) (d : io) (evs : list wakeup) :
  is_tty (term d) = true ->
  exists keys texts,
    let r := Admin.interactive_shell decode raw_of log0 d evs in
    let fin := ended (fst r) in
    let bl := feed keys (EmptyString, log0) in
    keys_ok keys /\
    fin = existsb (exits decode) evs /\
    (fin = false -> fst r = Blocked) /\
    sent (dev (snd r)) = sent d ++ keys /\
    stdout (dev (snd r)) =
      stdout d ++ map Write texts ++
      (if fin then [Print (String.append Py.nl "Connection closed.")] else []) /\
    command_buffer (snd r) = fst bl /\
    commands_log (snd r) = snd bl ++ (if fin then flushed (fst bl) else []) /\
    calls (term (dev (snd r))) =
      calls (term d) ++ [TcGetAttr; SetRaw] ++
      (if fin then [TcSetAttr (attrs (term d))] else []) /\
    attrs (term (dev (snd r))) =
      (if fin then attrs (term d) else raw_of (attrs (term d))).
Proof.
  intros Htty. unfold Admin.interactive_shell, Admin.setup_terminal.
  rewrite Htty.
  set (st0 := {| command_buffer := EmptyString; commands_log := log0;
                 dev := with_term _ d |}).
  destruct (admin_while_true decode evs st0) as (keys & texts & He).
  assert (Hfin : forall b,
             (fst (Admin.while_true decode st0 evs) = Waiting -> b = false) ->
             (fst (Admin.while_true decode st0 evs) <> Waiting -> b = true) ->
             b = existsb (exits decode) evs).
  { intros b H0 H1. destruct (existsb (exits decode) evs) eqn:E.
    - apply H1. intros H. apply admin_while_status in H. congruence.
    - apply H0, admin_while_status, E. }
  destruct (Admin.while_true decode st0 evs) as [x st] eqn:Ew.
  destruct He as (Ht & Hs & Ho & Hk & Hf). simpl in Ht, Hs, Ho, Hf, Hfin.
  exists keys, texts.
  assert (Hb : command_buffer st = fst (feed keys (EmptyString, log0)))
    by now rewrite <- Hf.
  assert (Hl : commands_log st = snd (feed keys (EmptyString, log0)))
    by now rewrite <- Hf.
  destruct x; simpl; rewrite ?flushed_if, ?Ht, ?Hs, ?Ho, ?Hb, ?Hl; simpl;
    (split; [exact Hk|]);
    (split; [apply Hfin; congruence|]);
    (split; [congruence|]);
    rewrite ?app_nil_r, <- ?app_assoc; repeat split; reflexivity.
Qed.

(** ** The three variants side by side *)

Lemma user_while_true (decode : list byte -> option string)
    (st : shell_state) (evs : list wakeup) :
  User.while_true decode st evs = Admin.while_true decode st evs.
Proof.
  revert st; induction evs as [|ev evs IH]; intros st; simpl.
  - reflexivity.
  - change (User.loop_body decode st ev) with (Admin.loop_body decode st ev).
    destruct (Admin.loop_body decode st ev) as [[] st1]; auto.
Qed.

Lemma user_interactive_shell (decode : list byte -> option string)
    (raw_of : termios_attrs -> termios_attrs)
    (log0 : list string) (d : io) (evs : list wakeup) :
  User.interactive_shell decode raw_of log0 d evs
  = Admin.interactive_shell decode raw_of log0 d evs.
Proof.
  unfold User.interactive_shell, Admin.interactive_shell.
  change (User.setup_terminal raw_of (term d))
    with (Admin.setup_terminal raw_of (term d)).
  destruct (Admin.setup_terminal raw_of (term d)) as [[old t]|]; [|reflexivity].
  rewrite user_while_true. reflexivity.
Qed.

Lemma cluster_loop_body (decode : list byte -> option string)
    (st : shell_state) (ev : wakeup) :
  Cluster.loop_body decode (dev st) ev =
  (fst (Admin.loop_body decode st ev), dev (snd (Admin.loop_body decode st ev))).
Proof.
  destruct ev as [|chan kbd]; [reflexivity|].
  unfold Cluster.loop_body, Admin.loop_body.
  change (Cluster.channel_block decode chan (dev st))
    with (Admin.channel_block decode chan (dev st)).
  destruct (Admin.channel_block decode chan (dev st)) as [[] d1]; try reflexivity.
  unfold Cluster.stdin_block, Admin.stdin_block.
  destruct kbd as [[c snd|]|]; try reflexivity.
  destruct (String.eqb (py_str c) Py.x1d); [reflexivity|].
  destruct snd; [|reflexivity].
  destruct (Admin.assemble _ _); reflexivity.
Qed.

Lemma cluster_while_true (decode : list byte -> option string)
    (evs : list wakeup) (st : shell_state) :
  Cluster.while_true decode (dev st) evs =
  (fst (Admin.while_true decode st evs), dev (snd (Admin.while_true decode st evs))).
Proof.
  revert st; induction evs as [|ev evs IH]; intros st; simpl.
  - reflexivity.
  - rewrite cluster_loop_body.
    destruct (Admin.loop_body decode st ev) as [[] st1]; simpl; auto.
Qed.

Lemma written_app (a b : list out) : written (a ++ b) = written a ++ written b.
Proof.
  induction a as [|[t|t] a IH]; simpl; [reflexivity| |]; now rewrite IH.
Qed.

(** A started P3 session ends when a P2 session does, the same
    characters and texts have gone out, and the same calls have reached
    the terminal; only the closing message differs. *)
Lemma cluster_session (decode : list byte -> option string)
    (raw_of : termios_attrs -> termios_attrs)
    (log0 : list string) (d : io) (evs : list wakeup) :
  let a := Admin.interactive_shell decode raw_of log0 d evs in
  let c := Cluster.interactive_shell decode raw_of d evs in
  fst c = fst a /\
  sent (snd c) = sent (dev (snd a)) /\
  term (snd c) = term (dev (snd a)) /\
  exists shown,
    stdout (dev (snd a)) = shown ++
      (if ended (fst a)
       then [Print (String.append Py.nl "Connection closed.")] else []) /\
    stdout (snd c) = shown ++
      (if ended (fst a)
       then [Print (String.append Py.nl "Shell session ended.")] else []).
Proof.
  unfold Admin.interactive_shell, Cluster.interactive_shell, Admin.setup_terminal.
  destruct (is_tty (term d)).
  - set (st0 := {| command_buffer := EmptyString; commands_log := log0;
                   dev := with_term _ d |}).
    change (with_term _ d) with (dev st0).
    rewrite cluster_while_true.
    destruct (Admin.while_true decode st0 evs) as [[] st]; simpl;
      repeat split; eexists; split;
      try reflexivity; now rewrite app_nil_r.
  - simpl. repeat split. exists (stdout d). now rewrite app_nil_r.
Qed.

(** ** The claims *)

(** C7. Feeding "ls -la\r" to the assembler from an empty buffer and an
    empty log gives the log ["ls -la"] and leaves the buffer empty; a
    session in which exactly these characters are typed holds the same
    buffer and log. *)
Theorem C7_ls_la_logged :
  feed (typed ("ls -la" ++ String CR "")) (EmptyString, [])
  = (EmptyString, ["ls -la"%string])
  /\ forall decode raw_of,
      let r := Admin.interactive_shell decode raw_of [] io_sample
                 (keystrokes ("ls -la" ++ String CR "")) in
      commands_log (snd r) = ["ls -la"%string]
      /\ command_buffer (snd r) = EmptyString.
Proof. split; [reflexivity|]. intros decode raw_of. split; reflexivity. Qed.

(** C6. Feeding "ls\x7f\x7fpwd\r" to the assembler from an empty buffer
    and an empty log gives the log ["pwd"]: after the two deletions the
    buffer is empty again. *)
Theorem C6_backspaces_erase_ls :
  feed (typed ("ls" ++ String DEL (String DEL "pwd") ++ String CR ""))
       (EmptyString, [])
  = (EmptyString, ["pwd"%string])
  /\ feed (typed ("ls" ++ String DEL (String DEL ""))) (EmptyString, [])
     = (EmptyString, [])
  /\ forall decode raw_of,
      commands_log (snd (Admin.interactive_shell decode raw_of [] io_sample
         (keystrokes ("ls" ++ String DEL (String DEL "pwd") ++ String CR ""))))
      = ["pwd"%string].
Proof. repeat split. Qed.

(** C8. A delete or backspace character on an empty buffer leaves it
    empty and the turn of the loop goes on normally (nothing is raised);
    on a non-empty buffer it removes exactly the last character; the new
    length is the old one less one, and zero stays zero. *)
Theorem C8_backspace_never_underflows (b : string) (c : ascii)
    (l : list string) (d : io) :
  Admin.assemble Py.x7f (EmptyString, l) = (EmptyString, l)
  /\ Admin.assemble Py.bs (EmptyString, l) = (EmptyString, l)
  /\ Admin.assemble Py.x7f ((b ++ String c "")%string, l) = (b, l)
  /\ Admin.assemble Py.bs ((b ++ String c "")%string, l) = (b, l)
  /\ String.length (fst (Admin.assemble Py.x7f (b, l))) = String.length b - 1
  /\ String.length (fst (Admin.assemble Py.bs (b, l))) = String.length b - 1
  /\ Admin.stdin_block (Some (ReadStr (Some DEL) SendOk))
       {| command_buffer := b; commands_log := l; dev := d |}
     = (Next, {| command_buffer := Py.slice_to b (-1); commands_log := l;
                 dev := do_send Py.x7f d |})
  /\ Admin.stdin_block (Some (ReadStr (Some BS) SendOk))
       {| command_buffer := b; commands_log := l; dev := d |}
     = (Next, {| command_buffer := Py.slice_to b (-1); commands_log := l;
                 dev := do_send Py.bs d |}).
Proof.
  assert (H7 : forall x, Admin.assemble Py.x7f (x, l) = (Py.slice_to x (-1), l))
    by reflexivity.
  assert (H8 : forall x, Admin.assemble Py.bs (x, l) = (Py.slice_to x (-1), l))
    by reflexivity.
  rewrite !H7, !H8. simpl fst.
  rewrite slice_last_snoc, slice_last_length, slice_last_empty.
  repeat split.
Qed.

Lemma entry_ok_facts (e : string) :
  entry_ok e ->
  Py.strip e <> EmptyString /\ ~ In CR (chars e) /\ ~ In GS (chars e).
Proof.
  intros (Hs & Hne & Hp). rewrite Hs. repeat split; auto.
  - intros Hin. now pose proof (isprintable_chars _ _ Hp Hin).
  - intros Hin. now pose proof (isprintable_chars _ _ Hp Hin).
Qed.

Lemma printable_no_gs (b : string) :
  Py.isprintable b = true -> ~ In GS (chars b).
Proof. intros Hp Hin. now pose proof (isprintable_chars _ _ Hp Hin). Qed.

Lemma key_no_gs (k : string) :
  k <> Py.x1d -> String.length k <= 1 -> ~ In GS (chars k).
Proof.
  destruct k as [|c [|c' k]]; simpl; intros Hne Hlen.
  - tauto.
  - intros [->|[]]. now apply Hne.
  - lia.
Qed.

Lemma admin_not_started (decode : list byte -> option string)
    (raw_of : termios_attrs -> termios_attrs)
    (log0 : list string) (d : io) (evs : list wakeup) :
  is_tty (term d) = false ->
  Admin.interactive_shell decode raw_of log0 d evs =
  (SetupRaised, {| command_buffer := EmptyString; commands_log := log0;
                   dev := d |}).
Proof.
  intros H. unfold Admin.interactive_shell, Admin.setup_terminal.
  now rewrite H.
Qed.

(** What a P2 session, started or not, has sent and logged. *)
Lemma admin_session_log (decode : list byte -> option string)
    (raw_of : termios_attrs -> termios_attrs)
    (log0 : list string) (d : io) (evs : list wakeup) :
  exists keys added,
    let r := Admin.interactive_shell decode raw_of log0 d evs in
    keys_ok keys /\
    sent (dev (snd r)) = sent d ++ keys /\
    Py.isprintable (command_buffer (snd r)) = true /\
    commands_log (snd r) = log0 ++ added /\
    Forall entry_ok added.
Proof.
  destruct (is_tty (term d)) eqn:Htty.
  - destruct (admin_session decode raw_of log0 d evs Htty)
      as (keys & texts & Hk & _ & _ & Hs & _ & Hb & Hl & _).
    destruct (feed_log keys EmptyString log0 eq_refl) as (a & Ha & Hok & Hp).
    exists keys. eexists. simpl. rewrite Hs, Hb, Hl, Ha, <- app_assoc.
    repeat split; auto.
    apply Forall_app; split; [exact Hok|].
    destruct (ended _); [now apply flushed_ok | constructor].
  - rewrite admin_not_started by exact Htty.
    exists [], []. simpl. rewrite !app_nil_r. repeat split; constructor.
Qed.

(** C5. Whatever characters are fed to the assembler, every entry it
    appends to the log, the final flush included, is non-empty after
    trimming and holds no carriage return; the whitespace-only line
    "   \r" appends nothing; the same holds of what a session appends. *)
Theorem C5_entries_trimmed_nonempty (s : string) (l : list string) :
  (exists added,
      snd (feed (typed s) (EmptyString, l)) = l ++ added /\
      Forall (fun e => Py.strip e <> EmptyString /\ ~ In CR (chars e))
             (added ++ flushed (fst (feed (typed s) (EmptyString, l)))))
  /\ feed (typed ("   " ++ String CR "")) (EmptyString, l) = (EmptyString, l)
  /\ (forall decode raw_of d evs,
        exists added,
          commands_log (snd (Admin.interactive_shell decode raw_of l d evs))
          = l ++ added /\
          Forall (fun e => Py.strip e <> EmptyString /\ ~ In CR (chars e)) added).
Proof.
  assert (Hw : forall a, Forall entry_ok a ->
             Forall (fun e => Py.strip e <> EmptyString /\ ~ In CR (chars e)) a).
  { intros a. apply Forall_impl. intros e He.
    destruct (entry_ok_facts e He) as (? & ? & _). auto. }
  split; [|split].
  - destruct (feed_log (typed s) EmptyString l eq_refl) as (a & Ha & Hok & Hp).
    exists a. split; [exact Ha|]. apply Hw, Forall_app. split; [exact Hok|].
    now apply flushed_ok.
  - reflexivity.
  - intros decode raw_of d evs.
    destruct (admin_session_log decode raw_of l d evs)
      as (keys & a & _ & _ & _ & Hl & Hok).
    exists a. split; [exact Hl | now apply Hw].
Qed.

(** C4. Whatever the wakeups, the exit character is never handed to
    [channel.send], in the P2 and in the P3 session alike, and it occurs
    neither in the buffer nor in any entry the session appends. *)
Theorem C4_exit_character_stays_local
    (decode : list byte -> option string)
    (raw_of : termios_attrs -> termios_attrs)
    (log0 : list string) (d : io) (evs : list wakeup) :
  let a := Admin.interactive_shell decode raw_of log0 d evs in
  let c := Cluster.interactive_shell decode raw_of d evs in
  exists keys added,
    sent (dev (snd a)) = sent d ++ keys /\
    sent (snd c) = sent d ++ keys /\
    Forall (fun k => k <> Py.x1d /\ ~ In GS (chars k)) keys /\
    ~ In GS (chars (command_buffer (snd a))) /\
    commands_log (snd a) = log0 ++ added /\
    Forall (fun e => ~ In GS (chars e)) added.
Proof.
  destruct (admin_session_log decode raw_of log0 d evs)
    as (keys & added & Hk & Hs & Hp & Hl & Hok).
  destruct (cluster_session decode raw_of log0 d evs) as (_ & Hc & _).
  exists keys, added. simpl in *. rewrite Hc, Hs.
  repeat split; auto.
  - revert Hk. apply Forall_impl. intros k [Hne Hlen].
    split; [exact Hne | now apply key_no_gs].
  - now apply printable_no_gs.
  - revert Hok. apply Forall_impl. intros e He.
    now destruct (entry_ok_facts e He) as (_ & _ & ?).
Qed.

Lemma admin_shell_grows (decode : list byte -> option string)
    (raw_of : termios_attrs -> termios_attrs)
    (log0 : list string) (d : io) (evs1 evs2 : list wakeup) :
  exists more,
    commands_log (snd (Admin.interactive_shell decode raw_of log0 d (evs1 ++ evs2)))
    = commands_log (snd (Admin.interactive_shell decode raw_of log0 d evs1)) ++ more.
Proof.
  unfold Admin.interactive_shell.
  destruct (Admin.setup_terminal raw_of (term d)) as [[old t]|].
  2: { exists []. simpl. now rewrite app_nil_r. }
  rewrite admin_while_app.
  destruct (Admin.while_true decode _ evs1) as [[] st1].
  2,3: exists []; simpl; now rewrite app_nil_r.
  destruct (admin_while_true decode evs2 st1) as (keys & texts & He).
  destruct He as (_ & _ & _ & _ & Hf). rewrite feed_frame in Hf.
  injection Hf as Hb Hl.
  destruct (Admin.while_true decode st1 evs2) as [[] st2]; simpl in *.
  - eexists. exact Hl.
  - rewrite flushed_if, Hl, <- app_assoc. eexists. reflexivity.
  - rewrite flushed_if, Hl, <- app_assoc. eexists. reflexivity.
Qed.

(** C10. The session only ever appends to the log it is given: at any
    moment the log is the one it received followed by the entries added
    so far, and whatever happens next leaves all of these in place and
    puts later entries after them. *)
Theorem C10_log_is_append_only
    (decode : list byte -> option string)
    (raw_of : termios_attrs -> termios_attrs)
    (log0 : list string) (d : io) (evs later : list wakeup) :
  exists added more,
    commands_log (snd (Admin.interactive_shell decode raw_of log0 d evs))
    = log0 ++ added
    /\ commands_log
         (snd (Admin.interactive_shell decode raw_of log0 d (evs ++ later)))
       = (log0 ++ added) ++ more.
Proof.
  destruct (admin_session_log decode raw_of log0 d evs)
    as (keys & added & _ & _ & _ & Hl & _).
  destruct (admin_shell_grows decode raw_of log0 d evs later) as (more & Hm).
  exists added, more. simpl in Hl. rewrite Hm, Hl. auto.
Qed.

(** C2. Once a wakeup that leaves the loop has occurred (the exit
    character, end of stream, or any raised error), the session is over
    and its log is the log of the lines completed by the characters sent,
    followed by the trimmed buffer when that is non-empty. *)
Theorem C2_exit_flushes_pending_command
    (decode : list byte -> option string)
    (raw_of : termios_attrs -> termios_attrs)
    (log0 : list string) (d : io) (evs : list wakeup) :
  is_tty (term d) = true ->
  existsb (exits decode) evs = true ->
  let r := Admin.interactive_shell decode raw_of log0 d evs in
  ended (fst r) = true /\
  User.interactive_shell decode raw_of log0 d evs = r /\
  exists keys,
    let b := fst (feed keys (EmptyString, log0)) in
    let l := snd (feed keys (EmptyString, log0)) in
    sent (dev (snd r)) = sent d ++ keys /\
    command_buffer (snd r) = b /\
    (Py.strip b <> EmptyString -> commands_log (snd r) = l ++ [Py.strip b]) /\
    (Py.strip b = EmptyString -> commands_log (snd r) = l).
Proof.
  intros Htty Hex.
  destruct (admin_session decode raw_of log0 d evs Htty)
    as (keys & texts & _ & Hfin & _ & Hs & _ & Hb & Hl & _).
  simpl in *. rewrite Hex in Hfin. rewrite Hfin in Hl.
  split; [exact Hfin|]. split; [apply user_interactive_shell|].
  exists keys. rewrite Hl, Hs, Hb. unfold flushed.
  repeat split; intros H.
  - apply truthy_true in H. now rewrite H.
  - rewrite H. simpl. now rewrite app_nil_r.
Qed.

(** C2 on a run: "ls" is typed, then the remote end closes. *)
Lemma C2_witness :
  is_tty (term io_sample) = true /\
  existsb (exits decode_ascii) (keystrokes "ls" ++ [eof]) = true /\
  let r := Admin.interactive_shell decode_ascii raw_sample [] io_sample
             (keystrokes "ls" ++ [eof]) in
  ended (fst r) = true /\
  User.interactive_shell decode_ascii raw_sample [] io_sample
    (keystrokes "ls" ++ [eof]) = r /\
  exists keys,
    let b := fst (feed keys (EmptyString, [])) in
    let l := snd (feed keys (EmptyString, [])) in
    sent (dev (snd r)) = sent io_sample ++ keys /\
    command_buffer (snd r) = b /\
    (Py.strip b <> EmptyString -> commands_log (snd r) = l ++ [Py.strip b]) /\
    (Py.strip b = EmptyString -> commands_log (snd r) = l).
Proof.
  split; [reflexivity|]. split; [reflexivity|].
  apply (C2_exit_flushes_pending_command decode_ascii raw_sample []
           io_sample (keystrokes "ls" ++ [eof])); reflexivity.
Defined.

(** C3. In a session that starts, raw mode is entered exactly once; the
    attributes captured at the start are restored exactly once when the
    session is over, however the loop was left, and not before; this
    holds of the P2 and of the P3 session. *)
Theorem C3_terminal_restored_exactly_once
    (decode : list byte -> option string)
    (raw_of : termios_attrs -> termios_attrs)
    (log0 : list string) (d : io) (evs : list wakeup) :
  is_tty (term d) = true ->
  let a := Admin.interactive_shell decode raw_of log0 d evs in
  let c := Cluster.interactive_shell decode raw_of d evs in
  let fin := existsb (exits decode) evs in
  ended (fst a) = fin /\ ended (fst c) = fin /\
  calls (term (dev (snd a))) =
    calls (term d) ++ [TcGetAttr; SetRaw] ++
    (if fin then [TcSetAttr (attrs (term d))] else []) /\
  calls (term (snd c)) = calls (term (dev (snd a))) /\
  attrs (term (dev (snd a))) =
    (if fin then attrs (term d) else raw_of (attrs (term d))) /\
  attrs (term (snd c)) = attrs (term (dev (snd a))).
Proof.
  intros Htty.
  destruct (admin_session decode raw_of log0 d evs Htty)
    as (keys & texts & _ & Hfin & _ & _ & _ & _ & _ & Hc & Ha).
  destruct (cluster_session decode raw_of log0 d evs) as (Hst & _ & Ht & _).
  simpl in *. rewrite Hst, Ht, Hc, Ha, <- Hfin. repeat split; reflexivity.
Qed.

(** C3 on a run: "ls" is typed, then [select.select] raises. *)
Lemma C3_witness :
  is_tty (term io_sample) = true /\
  let a := Admin.interactive_shell decode_ascii raw_sample [] io_sample
             (keystrokes "ls" ++ [SelectError]) in
  let c := Cluster.interactive_shell decode_ascii raw_sample io_sample
             (keystrokes "ls" ++ [SelectError]) in
  let fin := existsb (exits decode_ascii) (keystrokes "ls" ++ [SelectError]) in
  ended (fst a) = fin /\ ended (fst c) = fin /\
  calls (term (dev (snd a))) =
    calls (term io_sample) ++ [TcGetAttr; SetRaw] ++
    (if fin then [TcSetAttr (attrs (term io_sample))] else []) /\
  calls (term (snd c)) = calls (term (dev (snd a))) /\
  attrs (term (dev (snd a))) =
    (if fin then attrs (term io_sample)
     else raw_sample (attrs (term io_sample))) /\
  attrs (term (snd c)) = attrs (term (dev (snd a))).
Proof.
  split; [reflexivity|].
  apply (C3_terminal_restored_exactly_once decode_ascii raw_sample []
           io_sample (keystrokes "ls" ++ [SelectError])); reflexivity.
Defined.

(** C9 as stated fails: when the channel read times out, the turn ends
    at once and the character waiting on the keyboard is neither read,
    sent nor buffered in that turn. *)
Lemma C9_counterexample :
  let st := {| command_buffer := EmptyString; commands_log := [];
               dev := io_sample |} in
  let rr := ReadStr (Some "a"%char) SendOk in
  Admin.loop_body decode_ascii st (Ready (Some RecvTimeout) (Some rr))
  = (Continue, st)
  /\ Admin.loop_body decode_ascii st (Ready None (Some rr))
     = (Next, {| command_buffer := "a"; commands_log := [];
                 dev := do_send "a" io_sample |})
  /\ ~ both_processed decode_ascii st RecvTimeout rr.
Proof.
  split; [reflexivity|]. split; [reflexivity|].
  unfold both_processed. simpl. discriminate.
Qed.

(** C9, amended. When both sources are ready and the channel read
    returns data, the text is written and the character is then read and
    handled in the same turn; when the channel read times out, the turn
    ends with no change of state and the keyboard is not read in it. *)
Theorem C9_both_ready
    (decode : list byte -> option string) (st : shell_state)
    (data : list byte) (text : string) (rr : read_result) :
  data <> [] -> decode data = Some text ->
  let heard := {| command_buffer := command_buffer st;
                  commands_log := commands_log st;
                  dev := do_write text (dev st) |} in
  Admin.loop_body decode st (Ready (Some (RecvBytes data)) (Some rr))
  = Admin.stdin_block (Some rr) heard
  /\ User.loop_body decode st (Ready (Some (RecvBytes data)) (Some rr))
     = User.stdin_block (Some rr) heard
  /\ both_processed decode st (RecvBytes data) rr
  /\ Admin.loop_body decode st (Ready (Some RecvTimeout) (Some rr))
     = (Continue, st)
  /\ User.loop_body decode st (Ready (Some RecvTimeout) (Some rr))
     = (Continue, st).
Proof.
  intros Hne Hdec.
  assert (Ha : Admin.loop_body decode st (Ready (Some (RecvBytes data)) (Some rr))
               = Admin.stdin_block (Some rr)
                   {| command_buffer := command_buffer st;
                      commands_log := commands_log st;
                      dev := do_write text (dev st) |}).
  { unfold Admin.loop_body, Admin.channel_block.
    destruct data as [|x data]; [congruence|]. now rewrite Hdec. }
  repeat split.
  - exact Ha.
  - exact Ha.
  - unfold both_processed. rewrite Ha.
    unfold Admin.loop_body, Admin.channel_block.
    destruct data as [|x data]; [congruence|]. now rewrite Hdec.
  - destruct st; reflexivity.
  - destruct st; reflexivity.
Qed.

(** C9 on a turn: the channel delivers "h" while "s" is typed. *)
Lemma C9_witness :
  [x68] <> [] /\ decode_ascii [x68] = Some "h"%string /\
  let st := {| command_buffer := "l"; commands_log := []; dev := io_sample |} in
  Admin.loop_body decode_ascii st
    (Ready (Some (RecvBytes [x68]))
           (Some (ReadStr (Some "s"%char) SendOk)))
  = Admin.stdin_block (Some (ReadStr (Some "s"%char) SendOk))
      {| command_buffer := "l"; commands_log := [];
         dev := do_write "h" io_sample |}.
Proof.
  split; [discriminate|]. split; [reflexivity|].
  apply (C9_both_ready decode_ascii
           {| command_buffer := "l"; commands_log := []; dev := io_sample |}
           [x68] "h" (ReadStr (Some "s"%char) SendOk));
    [discriminate | reflexivity].
Defined.

(** C1 as stated fails: after "ls" and a carriage return the P2 session
    has logged the command, the P3 session has no log to put it in. *)
Lemma C1_counterexample :
  logged (observe_p2 (Admin.interactive_shell decode_ascii raw_sample []
            io_sample (keystrokes ("ls" ++ String CR ""))))
  = ["ls"%string]
  /\ ~ same_behaviour decode_ascii raw_sample io_sample
         (keystrokes ("ls" ++ String CR "")).
Proof.
  split; [reflexivity|]. intros [_ H].
  apply (f_equal logged) in H. discriminate H.
Qed.

(** C1, amended. The two P2 sessions are the same function, and the P3
    session ends on the same wakeups, hands the same characters to the
    channel, writes the same texts and makes the same calls on the
    terminal as they do; it keeps no command log. *)
Theorem C1_variants_agree_except_log
    (decode : list byte -> option string)
    (raw_of : termios_attrs -> termios_attrs)
    (log0 : list string) (d : io) (evs : list wakeup) :
  let a := Admin.interactive_shell decode raw_of log0 d evs in
  let u := User.interactive_shell decode raw_of log0 d evs in
  let c := Cluster.interactive_shell decode raw_of d evs in
  u = a
  /\ ending (observe_p3 c) = ending (observe_p2 a)
  /\ to_channel (observe_p3 c) = to_channel (observe_p2 a)
  /\ to_screen (observe_p3 c) = to_screen (observe_p2 a)
  /\ tty_calls (observe_p3 c) = tty_calls (observe_p2 a)
  /\ logged (observe_p3 c) = [].
Proof.
  destruct (cluster_session decode raw_of log0 d evs)
    as (Hst & Hs & Ht & shown & Ha & Hc).
  simpl in *. split; [apply user_interactive_shell|].
  rewrite Hst, Hs, Ht, Ha, Hc, !written_app.
  repeat split. now destruct (ended _).
Qed.

(** ** Further properties: the session loop *)

Lemma admin_loop_body_trace (decode : list byte -> option string)
    (st : shell_state) (ev : wakeup) :
  let st' := snd (Admin.loop_body decode st ev) in
  sent (dev st') =
    sent (dev st) ++ (if exits decode ev then [] else key_of ev)
  /\ stdout (dev st') = stdout (dev st) ++ map Write (text_of decode ev).
Proof.
  destruct ev as [|chan kbd]; [simpl; now rewrite !app_nil_r|].
  unfold Admin.loop_body, Admin.channel_block, Admin.stdin_block.
  destruct chan as [[[|x data]| |]|];
    try (simpl; now rewrite !app_nil_r).
  - unfold exits, text_of, key_of.
    destruct (decode (x :: data)); [|simpl; now rewrite !app_nil_r].
    destruct kbd as [[c sr|]|]; try (simpl; now rewrite !app_nil_r).
    destruct (String.eqb (py_str c) Py.x1d); [simpl; now rewrite !app_nil_r|].
    destruct sr; [|simpl; now rewrite !app_nil_r].
    destruct (Admin.assemble _ _). simpl. auto.
  - unfold exits, text_of, key_of.
    destruct kbd as [[c sr|]|]; try (simpl; now rewrite !app_nil_r).
    destruct (String.eqb (py_str c) Py.x1d); [simpl; now rewrite !app_nil_r|].
    destruct sr; [|simpl; now rewrite !app_nil_r].
    destruct (Admin.assemble _ _). simpl. now rewrite app_nil_r.
Qed.

Lemma admin_while_trace (decode : list byte -> option string)
    (evs : list wakeup) (st : shell_state) :
  let st' := snd (Admin.while_true decode st evs) in
  sent (dev st') = sent (dev st) ++ forwarded decode evs
  /\ stdout (dev st') = stdout (dev st) ++ map Write (displayed decode evs).
Proof.
  revert st; induction evs as [|ev evs IH]; intros st.
  - simpl. now rewrite !app_nil_r.
  - simpl. destruct (admin_loop_body_trace decode st ev) as [Hs Ho].
    pose proof (admin_loop_exits decode st ev) as Hx.
    destruct (Admin.loop_body decode st ev) as [f st1]. simpl in Hs, Ho, Hx.
    destruct f; rewrite Hx in *; simpl.
    1,2: destruct (IH st1) as [Hs' Ho']; rewrite Hs', Ho', Hs, Ho;
         now rewrite map_app, <- !app_assoc.
    all: now rewrite Hs, Ho, !app_nil_r.
Qed.

Lemma written_map_Write (texts : list string) :
  written (map Write texts) = texts.
Proof. induction texts as [|t ts IH]; simpl; [reflexivity | now rewrite IH]. Qed.

Lemma session_trace
    (decode : list byte -> option string)
    (raw_of : termios_attrs -> termios_attrs)
    (log0 : list string) (d : io) (evs : list wakeup) :
  is_tty (term d) = true ->
  let a := Admin.interactive_shell decode raw_of log0 d evs in
  let c := Cluster.interactive_shell decode raw_of d evs in
  let bl := feed (forwarded decode evs) (EmptyString, log0) in
  sent (dev (snd a)) = sent d ++ forwarded decode evs
  /\ sent (snd c) = sent d ++ forwarded decode evs
  /\ written (stdout (dev (snd a))) = written (stdout d) ++ displayed decode evs
  /\ written (stdout (snd c)) = written (stdout d) ++ displayed decode evs
  /\ command_buffer (snd a) = fst bl
  /\ commands_log (snd a) =
       snd bl ++ (if existsb (exits decode) evs then flushed (fst bl) else []).
Proof.
  intros Htty.
  destruct (admin_session decode raw_of log0 d evs Htty)
    as (keys & texts & _ & Hfin & _ & Hs & _ & Hb & Hl & _).
  destruct (cluster_session decode raw_of log0 d evs)
    as (_ & Hcs & _ & shown & Ha & Hc).
  assert (Hsent : sent (dev (snd (Admin.interactive_shell decode raw_of log0 d evs)))
                  = sent d ++ forwarded decode evs
                  /\ written (stdout (dev (snd (Admin.interactive_shell decode raw_of log0 d evs))))
                     = written (stdout d) ++ displayed decode evs).
  { unfold Admin.interactive_shell, Admin.setup_terminal. rewrite Htty.
    set (st0 := {| command_buffer := EmptyString; commands_log := log0;
                   dev := with_term _ d |}).
    destruct (admin_while_trace decode evs st0) as [H1 H2].
    destruct (Admin.while_true decode st0 evs) as [[] st]; simpl in *;
      rewrite ?H1, ?H2, ?written_app, ?written_map_Write; simpl;
      rewrite ?app_nil_r; split; reflexivity. }
  destruct Hsent as [Hsent Hw].
  simpl in *.
  assert (Hkeys : keys = forwarded decode evs).
  { rewrite Hs in Hsent. now apply app_inv_head in Hsent. }
  subst keys. rewrite Hcs, Hc, Hsent, Hb, Hl, <- Hfin.
  repeat split; auto.
  rewrite Ha, !written_app in Hw. rewrite written_app.
  destruct (ended _); simpl in *; rewrite ?app_nil_r in *; exact Hw.
Qed.

(** X1. In a session that starts, the characters handed to the channel
    are, in order and once each, the characters read on the wakeups
    before the one that ends the loop, and the texts written are, in
    order, the decoded data of the wakeups through that one; the P3
    session does the same.  Buffer and log of the P2 session are those of
    the assembler fed with the characters sent. *)
Theorem X1_both_directions_in_order
    (decode : list byte -> option string)
    (raw_of : termios_attrs -> termios_attrs)
    (log0 : list string) (d : io) (evs : list wakeup) :
  is_tty (term d) = true ->
  let a := Admin.interactive_shell decode raw_of log0 d evs in
  let c := Cluster.interactive_shell decode raw_of d evs in
  let bl := feed (forwarded decode evs) (EmptyString, log0) in
  sent (dev (snd a)) = sent d ++ forwarded decode evs
  /\ sent (snd c) = sent d ++ forwarded decode evs
  /\ written (stdout (dev (snd a))) = written (stdout d) ++ displayed decode evs
  /\ written (stdout (snd c)) = written (stdout d) ++ displayed decode evs
  /\ command_buffer (snd a) = fst bl
  /\ commands_log (snd a) =
       snd bl ++ (if existsb (exits decode) evs then flushed (fst bl) else []).
Proof. apply session_trace. Qed.

(** X1 on a run: the channel delivers "h", "ls" is typed, the remote
    end closes. *)
Lemma X1_witness :
  is_tty (term io_sample) = true /\
  let evs := Ready (Some (RecvBytes [x68])) None :: keystrokes "ls" ++ [eof] in
  let a := Admin.interactive_shell decode_ascii raw_sample [] io_sample evs in
  let c := Cluster.interactive_shell decode_ascii raw_sample io_sample evs in
  let bl := feed (forwarded decode_ascii evs) (EmptyString, []) in
  sent (dev (snd a)) = sent io_sample ++ forwarded decode_ascii evs
  /\ sent (snd c) = sent io_sample ++ forwarded decode_ascii evs
  /\ written (stdout (dev (snd a)))
     = written (stdout io_sample) ++ displayed decode_ascii evs
  /\ written (stdout (snd c))
     = written (stdout io_sample) ++ displayed decode_ascii evs
  /\ command_buffer (snd a) = fst bl
  /\ commands_log (snd a) =
       snd bl ++ (if existsb (exits decode_ascii) evs
                  then flushed (fst bl) else []).
Proof.
  split; [reflexivity|].
  apply (X1_both_directions_in_order decode_ascii raw_sample [] io_sample
           (Ready (Some (RecvBytes [x68])) None :: keystrokes "ls" ++ [eof]));
    reflexivity.
Defined.





(** ** Further properties: words and command lines *)



Lemma no_space_append (a b : string) :
  no_space (a ++ b) = no_space a && no_space b.
Proof.
  induction a as [|c a IH]; simpl; [reflexivity|].
  now rewrite IH, andb_assoc.
Qed.

Lemma truthy_append_r (a : string) (c : ascii) :
  Py.truthy (a ++ String c "") = true.
Proof. destruct a; reflexivity. Qed.

Lemma split_from_words (s acc : string) :
  no_space acc = true ->
  Forall (fun w => is_word w = true) (Py.split_from acc s).
Proof.
  revert acc; induction s as [|c s IH]; intros acc Hacc; simpl.
  - destruct (Py.truthy acc) eqn:E; constructor; [|constructor].
    unfold is_word. now rewrite E, Hacc.
  - destruct (Py.isspace c) eqn:Ec.
    + destruct (Py.truthy acc) eqn:E.
      * constructor; [unfold is_word; now rewrite E, Hacc | now apply IH].
      * now apply IH.
    + apply IH. rewrite no_space_append, Hacc. simpl. now rewrite Ec.
Qed.

Lemma split_words (s : string) :
  Forall (fun w => is_word w = true) (Py.split s).
Proof. now apply split_from_words. Qed.






Lemma startswith_prefix (s p q : string) :
  Py.startswith s (p ++ q) = true -> Py.startswith s p = true.
Proof.
  revert s; induction p as [|c p IH]; intros s; simpl; [reflexivity|].
  destruct s as [|x s]; [discriminate|].
  intros H. apply andb_true_iff in H as [Hx Hs]. now rewrite Hx, (IH s).
Qed.









(** ** Further properties: [main] of admin_connection.py *)

Lemma main_grows_refl (st st' : main_state) (outs : list out) :
  ftp st' = ftp st -> log st' = log st ->
  stdout (world st') = stdout (world st) ++ outs ->
  client_closed st' = client_closed st ->
  main_grows st st' [] [] outs.
Proof.
  intros Hf Hl Ho Hc. unfold main_grows.
  rewrite Hf, Hl, Ho, Hc, !app_nil_r. repeat split. constructor.
Qed.

Lemma main_grows_trans (a b c : main_state)
    (c1 c2 : list ftp_call) (e1 e2 : list string) (o1 o2 : list out) :
  main_grows a b c1 e1 o1 -> main_grows b c c2 e2 o2 ->
  main_grows a c (c1 ++ c2) (e1 ++ e2) (o1 ++ o2).
Proof.
  intros (Hf1 & Hl1 & Ho1 & Hc1 & Hk1) (Hf2 & Hl2 & Ho2 & Hc2 & Hk2).
  unfold main_grows. rewrite Hf2, Hf1, Hl2, Hl1, Ho2, Ho1, Hc2, Hc1.
  rewrite !app_assoc. repeat split. now apply Forall_app.
Qed.

(** The output of a session never holds the header of the log. *)
Lemma admin_shell_output (decode : list byte -> option string)
    (raw_of : termios_attrs -> termios_attrs)
    (log0 : list string) (d : io) (evs : list wakeup) :
  exists outs added,
    let r := Admin.interactive_shell decode raw_of log0 d evs in
    stdout (dev (snd r)) = stdout d ++ outs
    /\ ~ In log_header outs
    /\ commands_log (snd r) = log0 ++ added.
Proof.
  destruct (admin_session_log decode raw_of log0 d evs)
    as (keys & added & _ & _ & _ & Hl & _).
  destruct (is_tty (term d)) eqn:Htty.
  - destruct (admin_session decode raw_of log0 d evs Htty)
      as (keys' & texts & _ & _ & _ & _ & Ho & _).
    eexists. exists added. simpl in *. split; [exact Ho|]. split; [|exact Hl].
    intros Hin. apply in_app_or in Hin as [Hin|Hin].
    + apply in_map_iff in Hin as (t & Ht & _). discriminate.
    + destruct (ended _); [|contradiction].
      destruct Hin as [Hin|[]]. discriminate.
  - exists [], added. simpl in *. split; [|split; [tauto | exact Hl]].
    rewrite admin_not_started by exact Htty. simpl. now rewrite app_nil_r.
Qed.

Lemma print_log_output (st : main_state) :
  main_grows st (AdminMain.print_log st) [] []
    (log_header :: map Print (log st)).
Proof.
  unfold AdminMain.print_log.
  assert (H : forall l st1 outs,
             main_grows st st1 [] [] outs ->
             main_grows st (fold_left (fun acc c => say c acc) l st1) [] []
               (outs ++ map Print l)).
  { induction l as [|e l IH]; intros st1 outs Hg; simpl.
    - now rewrite app_nil_r.
    - replace (outs ++ Print e :: map Print l)
        with ((outs ++ [Print e]) ++ map Print l)
        by now rewrite <- app_assoc.
      apply IH. destruct Hg as (Hf & Hl & Ho & Hc & _).
      rewrite app_nil_r in Hf, Hl.
      apply main_grows_refl; simpl; [exact Hf | exact Hl | | exact Hc].
      rewrite Ho. now rewrite app_assoc. }
  apply (H (log st) _ [log_header]).
  apply main_grows_refl; reflexivity.
Qed.

Lemma grows_prompt (p : string) (st : main_state) :
  main_grows st (prompt p st) [] [] [Write p].
Proof. apply main_grows_refl; reflexivity. Qed.

Lemma grows_say (m : string) (st : main_state) :
  main_grows st (say m st) [] [] [Print m].
Proof. apply main_grows_refl; reflexivity. Qed.

Lemma grows_download (res : call_result) (a b : string) (st : main_state) :
  is_word a = true -> is_word b = true ->
  exists entries m,
    main_grows st (AdminMain.download_file res a b st)
      [Get b a] entries [Print m]
    /\ Print m <> log_header.
Proof.
  intros Ha Hb. unfold AdminMain.download_file.
  assert (Hc : Forall (fun c => ok_call c = true /\ c <> FtpClose) [Get b a]).
  { constructor; [|constructor]. split; [simpl; now rewrite Ha, Hb | discriminate]. }
  destruct res as [|msg].
  - eexists [_], _. split; [|shelve].
    unfold main_grows; simpl. repeat split; exact Hc.
  - exists [].  eexists. split; [|shelve].
    unfold main_grows; simpl. rewrite app_nil_r. repeat split; exact Hc.
  Unshelve. all: discriminate.
Qed.

Lemma grows_upload (res : call_result) (a b : string) (st : main_state) :
  is_word a = true -> is_word b = true ->
  exists entries m,
    main_grows st (AdminMain.upload_file res a b st)
      [Put a b] entries [Print m]
    /\ Print m <> log_header.
Proof.
  intros Ha Hb. unfold AdminMain.upload_file.
  assert (Hc : Forall (fun c => ok_call c = true /\ c <> FtpClose) [Put a b]).
  { constructor; [|constructor]. split; [simpl; now rewrite Ha, Hb | discriminate]. }
  destruct res as [|msg].
  - eexists [_], _. split; [|shelve].
    unfold main_grows; simpl. repeat split; exact Hc.
  - exists [].  eexists. split; [|shelve].
    unfold main_grows; simpl. rewrite app_nil_r. repeat split; exact Hc.
  Unshelve. all: discriminate.
Qed.

Lemma grows_shell (decode : list byte -> option string)
    (raw_of : termios_attrs -> termios_attrs)
    (env : shell_env) (st : main_state) :
  exists entries outs,
    main_grows st (state_of (AdminMain.enter_shell decode raw_of env st))
      [] entries outs
    /\ ~ In log_header outs
    /\ ~ is_leave (AdminMain.enter_shell decode raw_of env st).
Proof.
  unfold AdminMain.enter_shell. destruct env as [msg|evs msg].
  - exists [], []. simpl. split; [now apply main_grows_refl; rewrite ?app_nil_r|].
    tauto.
  - set (st1 := say _ st).
    destruct (admin_shell_output decode raw_of (log st1) (world st1) evs)
      as (outs & added & Ho & Hn & Hl).
    simpl in Ho, Hl.
    exists added, (Print "Entering interactive shell. Type 'exit' to leave." :: outs).
    assert (Hg : forall s, state_of s =
               {| log := commands_log (snd (Admin.interactive_shell decode raw_of
                                              (log st1) (world st1) evs));
                  world := dev (snd (Admin.interactive_shell decode raw_of
                                       (log st1) (world st1) evs));
                  ftp := ftp st1; client_closed := client_closed st1 |} ->
               main_grows st (state_of s) [] added
                 (Print "Entering interactive shell. Type 'exit' to leave." :: outs)).
    { intros s ->. unfold main_grows. simpl. rewrite Hl, Ho. simpl.
      rewrite app_nil_r, <- app_assoc. repeat split. constructor. }
    destruct (fst (Admin.interactive_shell decode raw_of (log st1) (world st1) evs));
      (split; [apply Hg; reflexivity|]); (split; [|simpl; tauto]);
      intros [H|H]; try discriminate H; now apply Hn.
Qed.

Lemma command_turn_grows (decode : list byte -> option string)
    (raw_of : termios_attrs -> termios_attrs)
    (t : turn) (st : main_state) :
  exists calls entries outs,
    main_grows st (state_of (AdminMain.command_turn decode raw_of t st))
      calls entries outs
    /\ (In log_header outs <->
        is_leave (AdminMain.command_turn decode raw_of t st)).
Proof.
  pose proof (grows_prompt AdminMain.command_prompt st) as Hp.
  assert (Hno : forall m, Print m <> log_header ->
            (In log_header [Write AdminMain.command_prompt; Print m] <-> False)).
  { intros m Hm. simpl. split; [|tauto]. intros [H|[H|[]]];
      [discriminate | now apply Hm]. }
  unfold AdminMain.command_turn.
  set (st0 := prompt AdminMain.command_prompt st) in *.
  destruct (typed_line t) as [text|].
  2: { exists [], [], [Write AdminMain.command_prompt]. simpl. split; [exact Hp|].
       split; [intros [H|[]]; discriminate | tauto]. }
  destruct (_ || _).
  - pose proof (split_words (Py.strip text)) as Hw.
    destruct (Py.split (Py.strip text)) as [|x1 [|x2 [|x3 [|x4 l]]]].
    5: clear Hw.
    1,2,3,5: exists [], [], ([Write AdminMain.command_prompt] ++ [Print "Invalid command format. Please use: <Download/Upload>_file local_path remote_path"]);
      split; [eapply (main_grows_trans _ _ _ [] [] [] []); [exact Hp | apply grows_say]|];
      simpl; apply Hno; discriminate.
    inversion Hw as [|? ? _ Hw2]; subst. inversion Hw2 as [|? ? H2 Hw3]; subst.
    inversion Hw3 as [|? ? H3 _]; subst.
    destruct (String.eqb (Py.lower x1) "download_file").
    + destruct (grows_download (ftp_does t) x2 x3 st0 H2 H3) as (e & m & Hg & Hm).
      exists ([] ++ [Get x3 x2]), ([] ++ e), ([Write AdminMain.command_prompt] ++ [Print m]).
      split; [eapply main_grows_trans; eassumption|]. simpl. now apply Hno.
    + destruct (String.eqb (Py.lower x1) "upload_file").
      * destruct (grows_upload (ftp_does t) x2 x3 st0 H2 H3) as (e & m & Hg & Hm).
        exists ([] ++ [Put x2 x3]), ([] ++ e), ([Write AdminMain.command_prompt] ++ [Print m]).
        split; [eapply main_grows_trans; eassumption|]. simpl. now apply Hno.
      * exists [], [], [Write AdminMain.command_prompt]. split; [exact Hp|].
        simpl. split; [intros [H|[]]; discriminate | tauto].
  - destruct (String.eqb (Py.lower (Py.strip text)) "shell").
    + destruct (grows_shell decode raw_of (shell_does t) st0)
        as (e & outs & Hg & Hn & Hnl).
      exists ([] ++ []), ([] ++ e), ([Write AdminMain.command_prompt] ++ outs).
      split; [eapply main_grows_trans; eassumption|].
      split; [|tauto]. intros [H|H]; [discriminate | now destruct (Hn H)].
    + destruct (String.eqb (Py.lower (Py.strip text)) "exit").
      * exists ([] ++ []), ([] ++ []),
          ([Write AdminMain.command_prompt] ++ log_header :: map Print (log st0)).
        split; [eapply main_grows_trans; [exact Hp | apply print_log_output]|].
        simpl. tauto.
      * exists [], [], ([Write AdminMain.command_prompt] ++ [Print "Invalid command. Type 'Download_file', 'Upload_file', 'shell', or 'exit'."]).
        split; [eapply (main_grows_trans _ _ _ [] [] [] []); [exact Hp | apply grows_say]|].
        simpl; apply Hno; discriminate.
Qed.

Lemma command_turn_leave (decode : list byte -> option string)
    (raw_of : termios_attrs -> termios_attrs)
    (t : turn) (st : main_state) :
  is_leave (AdminMain.command_turn decode raw_of t st) ->
  state_of (AdminMain.command_turn decode raw_of t st)
  = AdminMain.print_log (prompt AdminMain.command_prompt st).
Proof.
  unfold AdminMain.command_turn, AdminMain.enter_shell.
  destruct (typed_line t) as [text|]; [|simpl; tauto].
  destruct (_ || _).
  - destruct (Py.split (Py.strip text)) as [|x1 [|x2 [|x3 [|x4 l]]]];
      try (simpl; tauto).
    destruct (String.eqb _ _); [simpl; tauto|].
    destruct (String.eqb _ _); simpl; tauto.
  - destruct (String.eqb _ "shell").
    + destruct (shell_does t) as [msg|evs msg]; [simpl; tauto|].
      destruct (fst _); simpl; tauto.
    + destruct (String.eqb _ "exit"); simpl; [reflexivity | tauto].
Qed.

Lemma command_loop_grows (decode : list byte -> option string)
    (raw_of : termios_attrs -> termios_attrs)
    (turns : list turn) (st : main_state) :
  let r := AdminMain.command_loop decode raw_of st turns in
  exists calls entries outs,
    main_grows st (snd r) calls entries outs
    /\ (In log_header outs <-> fst r = AdminMain.Left)
    /\ (fst r = AdminMain.Left ->
        exists before,
          outs = before ++ log_header :: map Print (log (snd r))).
Proof.
  revert st; induction turns as [|t turns IH]; intros st; simpl.
  - exists [], [], []. split; [now apply main_grows_refl; rewrite ?app_nil_r|].
    simpl. split; [split; [tauto | discriminate] | discriminate].
  - destruct (command_turn_grows decode raw_of t st)
      as (c1 & e1 & o1 & Hg1 & Hh1).
    pose proof (command_turn_leave decode raw_of t st) as Hlv.
    destruct (AdminMain.command_turn decode raw_of t st) as [st1|st1|st1|msg st1];
      simpl in Hg1, Hh1, Hlv.
    + destruct (IH st1) as (c2 & e2 & o2 & Hg2 & Hh2 & Hp2).
      exists (c1 ++ c2), (e1 ++ e2), (o1 ++ o2).
      split; [eapply main_grows_trans; eassumption|]. split.
      * rewrite in_app_iff. tauto.
      * intros H. destruct (Hp2 H) as (b & ->). exists (o1 ++ b).
        now rewrite app_assoc.
    + exists c1, e1, o1. simpl.
      split; [exact Hg1|]. split; [split; [tauto | discriminate] | discriminate].
    + exists c1, e1, o1. simpl. split; [exact Hg1|]. split; [tauto|].
      intros _. specialize (Hlv I). subst st1.
      destruct (print_log_output (prompt AdminMain.command_prompt st))
        as (_ & Hl' & Ho' & _).
      destruct Hg1 as (_ & _ & Ho1 & _). rewrite Ho' in Ho1. simpl in Ho1.
      rewrite <- app_assoc in Ho1. apply app_inv_head in Ho1. subst o1.
      exists [Write AdminMain.command_prompt].
      rewrite Hl', app_nil_r. reflexivity.
    + exists c1, e1, o1. simpl.
      split; [exact Hg1|]. split; [split; [tauto | discriminate] | discriminate].
Qed.

Lemma command_loop_app (decode : list byte -> option string)
    (raw_of : termios_attrs -> termios_attrs)
    (t1 t2 : list turn) (st : main_state) :
  AdminMain.command_loop decode raw_of st (t1 ++ t2) =
  match AdminMain.command_loop decode raw_of st t1 with
  | (AdminMain.NeedInput, st1) => AdminMain.command_loop decode raw_of st1 t2
  | r => r
  end.
Proof.
  revert st; induction t1 as [|t t1 IH]; intros st; simpl; [reflexivity|].
  destruct (AdminMain.command_turn decode raw_of t st); auto.
Qed.

Ltac shape_split :=
  split; [|split; [|split; [|split; [|split; [|split]]]]].

(** What a run of the [try] statement of [main] has done. *)
Lemma admin_main_try_shape (decode : list byte -> option string)
    (raw_of : termios_attrs -> termios_attrs)
    (host : string) (connect_does sftp_does : call_result)
    (st : main_state) (turns : list turn) :
  let r := AdminMain.main_try decode raw_of host connect_does sftp_does st turns in
  exists calls outs,
    ftp (snd r) = ftp st ++ calls
    /\ stdout (world (snd r)) = stdout (world st) ++ outs
    /\ Forall (fun c => ok_call c = true) calls
    /\ (fst r = Finished -> client_closed (snd r) = true)
    /\ (fst r <> Finished -> client_closed (snd r) = client_closed st)
    /\ (In FtpClose calls <-> In log_header outs)
    /\ (In log_header outs ->
        fst r = Finished /\
        exists before, outs = before ++ log_header :: map Print (log (snd r))).
Proof.
  unfold AdminMain.main_try.
  set (hello := Print (String.append Py.nl
                  (String.append "Connected to "
                     (String.append host (String.append "." Py.nl))))).
  assert (Hhello : hello <> log_header) by discriminate.
  assert (Herr : forall msg,
             Print (String.append Py.nl (String.append "Error: " msg))
             <> log_header) by discriminate.
  destruct connect_does as [|msg].
  2: { exists [], [Print (String.append Py.nl (String.append "Error: " msg))].
       assert (Hno : ~ In log_header
                 [Print (String.append Py.nl (String.append "Error: " msg))]).
       { intros [H|[]]. now apply (Herr msg). }
       cbn [fst snd]. simpl ftp. simpl stdout. simpl client_closed.
       rewrite app_nil_r. shape_split; auto.
       - tauto.
       - split; [intros [] | intros H; now destruct (Hno H)].
       - intros H; now destruct (Hno H). }
  destruct sftp_does as [|msg].
  2: { exists [], [hello; Print (String.append Py.nl (String.append "Error: " msg))].
       assert (Hno : ~ In log_header
                 [hello; Print (String.append Py.nl (String.append "Error: " msg))]).
       { intros [H|[H|[]]]; [now apply Hhello | now apply (Herr msg)]. }
       cbn [fst snd]. simpl ftp. simpl stdout. simpl client_closed.
       rewrite app_nil_r, <- app_assoc. shape_split; auto.
       - tauto.
       - split; [intros [] | intros H; now destruct (Hno H)].
       - intros H; now destruct (Hno H). }
  set (st2 := {| log := []; world := _; ftp := _; client_closed := _ |}).
  destruct (command_loop_grows decode raw_of turns st2)
    as (c & e & o & (Hf & Hl & Ho & Hc & Hk) & Hh & Hp).
  assert (Hok : Forall (fun x => ok_call x = true) c).
  { revert Hk. apply Forall_impl. tauto. }
  assert (Hnc : ~ In FtpClose c).
  { intros Hin. rewrite Forall_forall in Hk. now destruct (Hk _ Hin). }
  simpl in Hf, Ho, Hc.
  destruct (AdminMain.command_loop decode raw_of st2 turns) as [[| | |msg] st'];
    cbn [fst snd] in *.
  - exists c, (hello :: o).
    assert (Hno : ~ In log_header (hello :: o)).
    { intros [H|H]; [now apply Hhello | apply Hh in H; discriminate]. }
    rewrite Hf, Ho, <- app_assoc. shape_split; auto; try discriminate.
    + split; [intros H; now destruct (Hnc H) | intros H; now destruct (Hno H)].
    + intros H; now destruct (Hno H).
  - exists c, (hello :: o).
    assert (Hno : ~ In log_header (hello :: o)).
    { intros [H|H]; [now apply Hhello | apply Hh in H; discriminate]. }
    rewrite Hf, Ho, <- app_assoc. shape_split; auto; try discriminate.
    + split; [intros H; now destruct (Hnc H) | intros H; now destruct (Hno H)].
    + intros H; now destruct (Hno H).
  - exists (c ++ [FtpClose]), (hello :: o).
    destruct (Hp eq_refl) as (b & Hb).
    simpl ftp. simpl stdout. simpl client_closed. simpl log.
    rewrite Hf, Ho, <- !app_assoc. shape_split; auto.
    + apply Forall_app. split; [exact Hok | now constructor].
    + tauto.
    + split; intros _; [right; now apply Hh | apply in_or_app; right; now left].
    + intros _. split; [reflexivity|]. exists (hello :: b). now rewrite Hb.
  - exists c, (hello :: o ++ [Print (String.append Py.nl (String.append "Error: " msg))]).
    assert (Hno : ~ In log_header
                    (hello :: o ++ [Print (String.append Py.nl
                                           (String.append "Error: " msg))])).
    { intros [H|H]; [now destruct (Hhello H)|].
      apply in_app_or in H as [H|[H|[]]]; [|now apply (Herr msg)].
      apply Hh in H. discriminate. }
    simpl ftp. simpl stdout. simpl client_closed.
    rewrite Hf, Ho, <- !app_assoc. shape_split; auto.
    + tauto.
    + split; [intros H; now destruct (Hnc H) | intros H; now destruct (Hno H)].
    + intros H; now destruct (Hno H).
Qed.

(** What a run of [main] has done. *)
Lemma admin_main_shape (decode : list byte -> option string)
    (raw_of : termios_attrs -> termios_attrs)
    (host_in user_in : input_result) (connect_does sftp_does : call_result)
    (st : main_state) (turns : list turn) :
  let r := AdminMain.main decode raw_of host_in user_in connect_does sftp_does
             st turns in
  exists calls outs,
    ftp (snd r) = ftp st ++ calls
    /\ stdout (world (snd r)) = stdout (world st) ++ outs
    /\ Forall (fun c => ok_call c = true) calls
    /\ (fst r = Finished -> client_closed (snd r) = true)
    /\ (fst r <> Finished -> client_closed (snd r) = client_closed st)
    /\ (In FtpClose calls <-> In log_header outs)
    /\ (In log_header outs ->
        fst r = Finished /\
        exists before, outs = before ++ log_header :: map Print (log (snd r))).
Proof.
  unfold AdminMain.main.
  destruct host_in as [h|].
  2: { exists [], [Print "=== Python SSH Client ==="; Write "Server IP/Hostname: "].
       assert (Hno : ~ In log_header
                 [Print "=== Python SSH Client ==="; Write "Server IP/Hostname: "]).
       { intros [H|[H|[]]]; discriminate. }
       simpl. rewrite app_nil_r, <- app_assoc. shape_split; auto.
       - discriminate.
       - split; [intros [] | intros H; now destruct (Hno H)].
       - intros H; now destruct (Hno H). }
  destruct user_in as [u|].
  2: { exists [], [Print "=== Python SSH Client ==="; Write "Server IP/Hostname: ";
                   Write "Username: "].
       assert (Hno : ~ In log_header
                 [Print "=== Python SSH Client ==="; Write "Server IP/Hostname: ";
                  Write "Username: "]).
       { intros [H|[H|[H|[]]]]; discriminate. }
       simpl. rewrite app_nil_r, <- !app_assoc. shape_split; auto.
       - discriminate.
       - split; [intros [] | intros H; now destruct (Hno H)].
       - intros H; now destruct (Hno H). }
  set (st2 := prompt "Username: " _).
  destruct (admin_main_try_shape decode raw_of (Py.strip h) connect_does
              sftp_does st2 turns)
    as (c & o & Hf & Ho & Hk & Hfin & Hnf & Hiff & Hp).
  set (pre := [Print "=== Python SSH Client ==="; Write "Server IP/Hostname: ";
               Write "Username: "]).
  assert (Hpre : ~ In log_header pre).
  { intros [H|[H|[H|[]]]]; discriminate. }
  exists c, (pre ++ o). simpl in Hf, Ho, Hnf.
  rewrite Hf, Ho, <- !app_assoc. shape_split; auto.
  - rewrite in_app_iff. tauto.
  - rewrite in_app_iff. intros [H|H]; [now destruct (Hpre H)|].
    destruct (Hp H) as (Hfi & b & Hb). split; [exact Hfi|].
    exists (pre ++ b). now rewrite Hb, <- app_assoc.
Qed.

(** X5. Whatever is typed, [main] never asks [ftp_client] for a
    transfer with an empty path or a path that holds whitespace: both
    paths of every [get] and [put] are words of the command line. *)
Theorem X5_transfer_paths_are_words
    (decode : list byte -> option string)
    (raw_of : termios_attrs -> termios_attrs)
    (host_in user_in : input_result) (connect_does sftp_does : call_result)
    (st : main_state) (turns : list turn) :
  exists calls,
    ftp (snd (AdminMain.main decode raw_of host_in user_in connect_does
                sftp_does st turns)) = ftp st ++ calls
    /\ Forall (fun c =>
                 match c with
                 | Get a b | Put a b =>
                     a <> EmptyString /\ b <> EmptyString
                     /\ no_space a = true /\ no_space b = true
                 | FtpClose => True
                 end) calls.
Proof.
  destruct (admin_main_shape decode raw_of host_in user_in connect_does
              sftp_does st turns) as (c & o & Hf & _ & Hk & _).
  exists c. split; [exact Hf|]. revert Hk. apply Forall_impl.
  intros [a b|a b|]; simpl; auto; unfold is_word; intros H.
  all: apply andb_true_iff in H as [Ha Hb];
    apply andb_true_iff in Ha as [Ha1 Ha2];
    apply andb_true_iff in Hb as [Hb1 Hb2];
    apply truthy_true in Ha1, Hb1; auto.
Qed.


Lemma main_try_log_grows (decode : list byte -> option string)
    (raw_of : termios_attrs -> termios_attrs)
    (host : string) (connect_does sftp_does : call_result)
    (st : main_state) (turns later : list turn) :
  exists more,
    log (snd (AdminMain.main_try decode raw_of host connect_does sftp_does st
                (turns ++ later)))
    = log (snd (AdminMain.main_try decode raw_of host connect_does sftp_does
                  st turns)) ++ more.
Proof.
  unfold AdminMain.main_try.
  destruct connect_does; [|exists []; now rewrite app_nil_r].
  destruct sftp_does; [|exists []; now rewrite app_nil_r].
  set (st2 := {| log := []; world := _; ftp := _; client_closed := _ |}).
  rewrite command_loop_app.
  destruct (AdminMain.command_loop decode raw_of st2 turns) as [[| | |msg] st1];
    try (exists []; now rewrite app_nil_r).
  destruct (command_loop_grows decode raw_of later st1)
    as (c & e & o & (_ & Hl & _) & _).
  exists e.
  destruct (AdminMain.command_loop decode raw_of st1 later) as [[| | |msg] st'];
    simpl in *; exact Hl.
Qed.

(** X7. The log of [main] only grows: the entries put there by earlier
    transfers and sessions stay, in order, whatever is typed later, and
    what later transfers and sessions log comes after them. *)
Theorem X7_main_log_is_append_only
    (decode : list byte -> option string)
    (raw_of : termios_attrs -> termios_attrs)
    (host_in user_in : input_result) (connect_does sftp_does : call_result)
    (st : main_state) (turns later : list turn) :
  exists more,
    log (snd (AdminMain.main decode raw_of host_in user_in connect_does
                sftp_does st (turns ++ later)))
    = log (snd (AdminMain.main decode raw_of host_in user_in connect_does
                  sftp_does st turns)) ++ more.
Proof.
  unfold AdminMain.main.
  destruct host_in; [|exists []; now rewrite app_nil_r].
  destruct user_in; [|exists []; now rewrite app_nil_r].
  apply main_try_log_grows.
Qed.

(** ** Further properties: [main] of user_connection.py *)

(** X8. When [client.connect] or [client.invoke_shell] raises, the
    [finally] block of [main] reads [commands_log] before anything was
    assigned to it: after the error message and the header of the log,
    an UnboundLocalError leaves [main] and [client.close()] is never
    called. *)
Theorem X8_failed_connection_escapes
    (decode : list byte -> option string)
    (raw_of : termios_attrs -> termios_attrs)
    (h u : string) (connect_does : call_result) (env : shell_env)
    (st : main_state) :
  (exists msg, connect_does = Fails msg
               \/ (connect_does = Done /\ env = InvokeFails msg)) ->
  let r := UserMain.main decode raw_of (Line h) (Line u) connect_does env st in
  fst r = Escaped (UnboundLocalError "commands_log")
  /\ client_closed (snd r) = client_closed st
  /\ exists msg,
       stdout (world (snd r)) =
       stdout (world st) ++
       [Print "=== Python SSH Client ==="; Write "Server IP/Hostname: ";
        Write "Username: ";
        Print (String.append Py.nl (String.append "Error: " msg));
        log_header].
Proof.
  intros (msg & [-> | [-> ->]]); unfold UserMain.main, UserMain.main_try;
    simpl; repeat split; exists msg; now rewrite <- !app_assoc.
Qed.

(** X8 when the connection is refused. *)
Lemma X8_witness :
  (exists msg, Fails "refused" = Fails msg
               \/ (Fails "refused" = Done /\ InvokeFails "" = InvokeFails msg))
  /\ fst (UserMain.main decode_ascii raw_sample (Line "host") (Line "me")
            (Fails "refused") (InvokeFails "")
            {| log := []; world := io_sample; ftp := [];
               client_closed := false |})
     = Escaped (UnboundLocalError "commands_log").
Proof.
  split; [exists "refused"%string; now left|].
  apply (X8_failed_connection_escapes decode_ascii raw_sample "host" "me"
           (Fails "refused") (InvokeFails "")
           {| log := []; world := io_sample; ftp := [];
              client_closed := false |}).
  exists "refused"%string. now left.
Defined.




(** ** Further properties: the monitoring loop *)

Lemma slice_is_lastn {A : Type} (l : list A) :
  Py.list_slice_from l (-60) = lastn 60 l.
Proof.
  unfold Py.list_slice_from, lastn. f_equal.
  change (-60 <? 0)%Z with true. cbv iota. lia.
Qed.

Lemma lastn_short {A : Type} (n : nat) (l : list A) :
  List.length l <= n -> lastn n l = l.
Proof.
  intros H. unfold lastn. replace (List.length l - n) with 0 by lia.
  reflexivity.
Qed.

Lemma lastn_length {A : Type} (n : nat) (l : list A) :
  List.length (lastn n l) = Nat.min n (List.length l).
Proof. unfold lastn. rewrite length_skipn. lia. Qed.

Lemma lastn_snoc {A : Type} (n : nat) (l : list A) (x : A) :
  lastn n (lastn n l ++ [x]) = lastn n (l ++ [x]).
Proof.
  unfold lastn at 2.
  replace (skipn (List.length l - n) l ++ [x])
    with (skipn (List.length l - n) (l ++ [x])).
  - unfold lastn. rewrite skipn_skipn, length_skipn, !length_app. simpl.
    f_equal. lia.
  - rewrite skipn_app.
    replace (List.length l - n - List.length l) with 0 by lia. reflexivity.
Qed.

Lemma lastn_map {A B : Type} (f : A -> B) (n : nat) (l : list A) :
  lastn n (map f l) = map f (lastn n l).
Proof. unfold lastn. now rewrite length_map, skipn_map. Qed.

Lemma history_branch {A B : Type} (f : A -> B) (seen : list A) (m : A)
    (c : bool) :
  (c = false -> List.length (lastn 60 seen ++ [m]) <= 60) ->
  (if c
   then Py.list_slice_from (map f (lastn 60 seen) ++ [f m])
          (- Monitor.history_length)
   else map f (lastn 60 seen) ++ [f m])
  = map f (lastn 60 (seen ++ [m])).
Proof.
  intros Hc. rewrite <- (lastn_snoc 60 seen m).
  change (map f (lastn 60 seen) ++ [f m]) with
    (map f (lastn 60 seen) ++ map f [m]).
  rewrite <- map_app. destruct c.
  - unfold Monitor.history_length. change (- 60)%Z with (-60)%Z.
    now rewrite slice_is_lastn, lastn_map.
  - now rewrite (lastn_short 60 (lastn 60 seen ++ [m])) by auto.
Qed.

Lemma update_history_holds {V : Type} (seen : list (Monitor.metrics V))
    (m : Monitor.metrics V) (g : Monitor.globals V) :
  histories_hold seen g ->
  histories_hold (seen ++ [m]) (Monitor.update_history V (Some m) g).
Proof.
  intros (Hc & Hm & Hd & Ht & _). unfold Monitor.update_history.
  rewrite Hc, Hm, Hd, Ht.
  assert (Hlast : last (map Some (seen ++ [m])) None = Some m).
  { rewrite map_app. simpl. apply last_last. }
  destruct (Z.gtb_spec
              (Z.of_nat (List.length
                 (map (Monitor.timestamp V) (lastn 60 seen)
                  ++ [Monitor.timestamp V m])))
              Monitor.history_length) as [Hgt|Hle].
  - unfold histories_hold. cbn [Monitor.cpu_history Monitor.mem_history
      Monitor.disk_history Monitor.timestamps Monitor.last_metrics].
    rewrite !(history_branch _ seen m true) by discriminate.
    rewrite Hlast. repeat split.
  - assert (Hlen : List.length (lastn 60 seen ++ [m]) <= 60).
    { rewrite length_app, length_map in Hle. rewrite length_app.
      unfold Monitor.history_length in Hle. simpl in *. lia. }
    unfold histories_hold. cbn [Monitor.cpu_history Monitor.mem_history
      Monitor.disk_history Monitor.timestamps Monitor.last_metrics].
    rewrite !(history_branch _ seen m false) by (intros _; exact Hlen).
    rewrite Hlast. repeat split.
Qed.

Section MonitorFacts.

Variable V : Type.
Variable gt : V -> V -> bool.
Variable show : V -> string.
Variables cpu_thresh mem_thresh disk_thresh : V.
Variable interval : Z.


(** One threshold test adds at most one warning, to the display and to
    the logger alike, and touches nothing else. *)
Lemma check_effect (name : string) (value thresh : V)
    (g : Monitor.globals V) :
  let g' := Monitor.check V gt show name value thresh g in
  exists ws,
    List.length ws = (if gt value thresh then 1 else 0)
    /\ Monitor.last_warnings V g' = Monitor.last_warnings V g ++ ws
    /\ Monitor.records V g' =
       Monitor.records V g ++ map (pair Monitor.WARNING) ws
    /\ Monitor.cpu_history V g' = Monitor.cpu_history V g
    /\ Monitor.mem_history V g' = Monitor.mem_history V g
    /\ Monitor.disk_history V g' = Monitor.disk_history V g
    /\ Monitor.timestamps V g' = Monitor.timestamps V g
    /\ Monitor.last_metrics V g' = Monitor.last_metrics V g
    /\ Monitor.slept V g' = Monitor.slept V g.
Proof.
  unfold Monitor.check. destruct (gt value thresh).
  - eexists [_]. simpl. repeat split.
  - exists []. simpl. rewrite !app_nil_r. repeat split.
Qed.

(** The three tests of lines 132-143 after [last_warnings.clear()]. *)
Lemma checks_effect (m : Monitor.metrics V) (g : Monitor.globals V) :
  let g' :=
    Monitor.check V gt show "Disk" (Monitor.disk V m) disk_thresh
      (Monitor.check V gt show "Memory" (Monitor.memory V m) mem_thresh
         (Monitor.check V gt show "CPU" (Monitor.cpu V m) cpu_thresh
            (Monitor.clear_warnings V g))) in
  exists ws,
    List.length ws =
      (if gt (Monitor.cpu V m) cpu_thresh then 1 else 0)
      + (if gt (Monitor.memory V m) mem_thresh then 1 else 0)
      + (if gt (Monitor.disk V m) disk_thresh then 1 else 0)
    /\ Monitor.last_warnings V g' = ws
    /\ Monitor.records V g' =
       Monitor.records V g ++ map (pair Monitor.WARNING) ws
    /\ Monitor.cpu_history V g' = Monitor.cpu_history V g
    /\ Monitor.mem_history V g' = Monitor.mem_history V g
    /\ Monitor.disk_history V g' = Monitor.disk_history V g
    /\ Monitor.timestamps V g' = Monitor.timestamps V g
    /\ Monitor.last_metrics V g' = Monitor.last_metrics V g
    /\ Monitor.slept V g' = Monitor.slept V g.
Proof.
  set (g0 := Monitor.clear_warnings V g).
  destruct (check_effect "CPU" (Monitor.cpu V m) cpu_thresh g0)
    as (w1 & L1 & W1 & R1 & A1 & B1 & C1 & D1 & E1 & F1).
  set (g1 := Monitor.check V gt show "CPU" _ _ g0) in *.
  destruct (check_effect "Memory" (Monitor.memory V m) mem_thresh g1)
    as (w2 & L2 & W2 & R2 & A2 & B2 & C2 & D2 & E2 & F2).
  set (g2 := Monitor.check V gt show "Memory" _ _ g1) in *.
  destruct (check_effect "Disk" (Monitor.disk V m) disk_thresh g2)
    as (w3 & L3 & W3 & R3 & A3 & B3 & C3 & D3 & E3 & F3).
  cbv zeta in *.
  exists (w1 ++ w2 ++ w3).
  rewrite W3, W2, W1, R3, R2, R1, A3, A2, A1, B3, B2, B1, C3, C2, C1,
    D3, D2, D1, E3, E2, E1, F3, F2, F1.
  rewrite !length_app, L1, L2, L3, !map_app, <- !app_assoc.
  unfold g0. simpl. repeat split. lia.
Qed.

Lemma monitor_turn_holds (seen : list (Monitor.metrics V))
    (t : Monitor.tick V) (g : Monitor.globals V) :
  histories_hold seen g ->
  histories_hold (seen ++ delivered [t]) (Monitor.monitor_turn V gt show cpu_thresh mem_thresh disk_thresh
       interval t g).
Proof.
  intros Hh. unfold Monitor.monitor_turn.
  assert (Hd : delivered [t] =
               match Monitor.sample V t with Some m => [m] | None => [] end).
  { unfold delivered. simpl. now rewrite app_nil_r. }
  rewrite Hd. destruct (Monitor.sample V t) as [m|].
  - pose proof (update_history_holds seen m g Hh) as Hu.
    destruct (Monitor.plot_does V t).
    + destruct (checks_effect m (Monitor.update_history V (Some m) g))
        as (ws & _ & _ & _ & A & B & C & D & E & _).
      cbv zeta in *. unfold histories_hold in *. unfold Monitor.sleep.
      cbn [Monitor.cpu_history Monitor.mem_history Monitor.disk_history
           Monitor.timestamps Monitor.last_metrics].
      rewrite A, B, C, D, E. exact Hu.
    + exact Hu.
  - rewrite app_nil_r. exact Hh.
Qed.

Lemma monitor_turn_sound (t : Monitor.tick V) (g : Monitor.globals V) :
  warnings_sound g -> warnings_sound (Monitor.monitor_turn V gt show cpu_thresh mem_thresh disk_thresh
       interval t g).
Proof.
  intros [Hlen Hin]. unfold Monitor.monitor_turn.
  destruct (Monitor.sample V t) as [m|]; [|split; assumption].
  assert (Hu : Monitor.last_warnings V (Monitor.update_history V (Some m) g)
               = Monitor.last_warnings V g
               /\ Monitor.records V (Monitor.update_history V (Some m) g)
                  = Monitor.records V g).
  { unfold Monitor.update_history. now destruct (_ >? _)%Z. }
  destruct Hu as [Hw Hr].
  destruct (Monitor.plot_does V t) as [|msg].
  - destruct (checks_effect m (Monitor.update_history V (Some m) g))
      as (ws & L & W & R & _).
    cbv zeta in *. unfold warnings_sound, Monitor.sleep.
    cbn [Monitor.last_warnings Monitor.records]. rewrite W, R. split.
    + rewrite L.
      destruct (gt _ cpu_thresh), (gt _ mem_thresh), (gt _ disk_thresh);
        simpl; lia.
    + apply Forall_forall. intros w Hw'. apply in_or_app. right.
      now apply in_map.
  - unfold warnings_sound, Monitor.sleep, Monitor.log_error.
    cbn [Monitor.last_warnings Monitor.records].
    rewrite Hw, Hr. split; [exact Hlen|].
    revert Hin. apply Forall_impl. intros w Hw'. apply in_or_app. now left.
Qed.

Lemma monitor_server_holds (ticks : list (Monitor.tick V))
    (seen : list (Monitor.metrics V)) (g : Monitor.globals V) :
  histories_hold seen g -> warnings_sound g ->
  histories_hold (seen ++ delivered ticks) (Monitor.monitor_server V gt show cpu_thresh mem_thresh disk_thresh
       interval ticks g)
  /\ warnings_sound (Monitor.monitor_server V gt show cpu_thresh mem_thresh disk_thresh
       interval ticks g).
Proof.
  revert seen g; induction ticks as [|t ticks IH]; intros seen g Hh Hs.
  - unfold delivered. simpl. now rewrite app_nil_r.
  - change (Monitor.monitor_server V gt show cpu_thresh mem_thresh disk_thresh
              interval (t :: ticks) g)
      with (Monitor.monitor_server V gt show cpu_thresh mem_thresh disk_thresh
              interval ticks
              (Monitor.monitor_turn V gt show cpu_thresh mem_thresh disk_thresh
                 interval t g)).
    replace (seen ++ delivered (t :: ticks))
      with ((seen ++ delivered [t]) ++ delivered ticks).
    + apply IH; [now apply monitor_turn_holds | now apply monitor_turn_sound].
    + unfold delivered. simpl. now rewrite app_nil_r, <- app_assoc.
Qed.

End MonitorFacts.

Lemma monitor_server_snoc {V : Type} (gt : V -> V -> bool) (show : V -> string)
    (ct mt dt : V) (interval : Z) (ticks : list (Monitor.tick V))
    (t : Monitor.tick V) (g : Monitor.globals V) :
  Monitor.monitor_server V gt show ct mt dt interval (ticks ++ [t]) g
  = Monitor.monitor_turn V gt show ct mt dt interval t
      (Monitor.monitor_server V gt show ct mt dt interval ticks g).
Proof. unfold Monitor.monitor_server. now rewrite fold_left_app. Qed.

Lemma initial_holds {V : Type} :
  histories_hold [] (Monitor.initial V) /\ warnings_sound (Monitor.initial V).
Proof.
  unfold histories_hold, warnings_sound. simpl. repeat split; auto.
Qed.

(** X10. However long the monitoring loop has run, each of the four
    histories holds the values of the last sixty samples that
    [get_server_metrics] delivered, oldest first and entry for entry in
    step with the others; a turn whose plot fails still counts, a turn
    without a sample does not; [last_metrics] is the latest sample. *)
Theorem X10_histories_are_last_sixty {V : Type}
    (gt : V -> V -> bool) (show : V -> string) (ct mt dt : V) (interval : Z)
    (ticks : list (Monitor.tick V)) :
  let g := Monitor.monitor_server V gt show ct mt dt interval ticks
             (Monitor.initial V) in
  let ms := lastn 60 (delivered ticks) in
  Monitor.cpu_history V g = map (Monitor.cpu V) ms
  /\ Monitor.mem_history V g = map (Monitor.memory V) ms
  /\ Monitor.disk_history V g = map (Monitor.disk V) ms
  /\ Monitor.timestamps V g = map (Monitor.timestamp V) ms
  /\ List.length (Monitor.timestamps V g)
     = Nat.min 60 (List.length (delivered ticks))
  /\ Monitor.last_metrics V g = last (map Some (delivered ticks)) None.
Proof.
  destruct (@initial_holds V) as [Hh Hs].
  destruct (monitor_server_holds V gt show ct mt dt interval ticks []
              (Monitor.initial V) Hh Hs) as [(A & B & C & D & E) _].
  simpl in *. rewrite A, B, C, D, E, length_map, lastn_length.
  repeat split.
Qed.

(** X11. However long the monitoring loop has run, at most three
    warnings are on display and each of them was handed to the logger:
    warnings of earlier turns do not pile up. *)
Theorem X11_warnings_bounded_and_logged {V : Type}
    (gt : V -> V -> bool) (show : V -> string) (ct mt dt : V) (interval : Z)
    (ticks : list (Monitor.tick V)) :
  let g := Monitor.monitor_server V gt show ct mt dt interval ticks
             (Monitor.initial V) in
  List.length (Monitor.last_warnings V g) <= 3
  /\ Forall (fun w => In (Monitor.WARNING, w) (Monitor.records V g))
            (Monitor.last_warnings V g).
Proof.
  destruct (@initial_holds V) as [Hh Hs].
  exact (proj2 (monitor_server_holds V gt show ct mt dt interval ticks []
                  (Monitor.initial V) Hh Hs)).
Qed.

Lemma checks_warnings {V : Type} (gt : V -> V -> bool) (show : V -> string)
    (ct mt dt : V) (m : Monitor.metrics V) (g1 g2 : Monitor.globals V) :
  Monitor.last_warnings V
    (Monitor.check V gt show "Disk" (Monitor.disk V m) dt
       (Monitor.check V gt show "Memory" (Monitor.memory V m) mt
          (Monitor.check V gt show "CPU" (Monitor.cpu V m) ct
             (Monitor.clear_warnings V g1))))
  = Monitor.last_warnings V
      (Monitor.check V gt show "Disk" (Monitor.disk V m) dt
         (Monitor.check V gt show "Memory" (Monitor.memory V m) mt
            (Monitor.check V gt show "CPU" (Monitor.cpu V m) ct
               (Monitor.clear_warnings V g2)))).
Proof.
  unfold Monitor.check.
  destruct (gt (Monitor.cpu V m) ct), (gt (Monitor.memory V m) mt),
    (gt (Monitor.disk V m) dt); reflexivity.
Qed.

(** X12. After a turn with a sample and a plot, the warnings on display
    are those of that sample alone, whatever happened in the turns
    before: the same as if it had been the first turn.  There are as
    many as there are thresholds exceeded, and none exactly when no
    threshold is exceeded. *)
Theorem X12_warnings_of_latest_sample {V : Type}
    (gt : V -> V -> bool) (show : V -> string) (ct mt dt : V) (interval : Z)
    (ticks : list (Monitor.tick V)) (t : Monitor.tick V)
    (m : Monitor.metrics V) :
  Monitor.sample V t = Some m -> Monitor.plot_does V t = Done ->
  let g := Monitor.monitor_server V gt show ct mt dt interval (ticks ++ [t])
             (Monitor.initial V) in
  Monitor.last_warnings V g
  = Monitor.last_warnings V
      (Monitor.monitor_server V gt show ct mt dt interval [t]
         (Monitor.initial V))
  /\ List.length (Monitor.last_warnings V g)
     = (if gt (Monitor.cpu V m) ct then 1 else 0)
       + (if gt (Monitor.memory V m) mt then 1 else 0)
       + (if gt (Monitor.disk V m) dt then 1 else 0)
  /\ (Monitor.last_warnings V g = [] <->
      gt (Monitor.cpu V m) ct = false /\ gt (Monitor.memory V m) mt = false
      /\ gt (Monitor.disk V m) dt = false).
Proof.
  intros Hs Hp. cbv zeta. rewrite monitor_server_snoc.
  change (Monitor.monitor_server V gt show ct mt dt interval [t]
            (Monitor.initial V))
    with (Monitor.monitor_turn V gt show ct mt dt interval t (Monitor.initial V)).
  set (g0 := Monitor.monitor_server V gt show ct mt dt interval ticks
               (Monitor.initial V)).
  unfold Monitor.monitor_turn. rewrite Hs, Hp.
  destruct (checks_effect V gt show ct mt dt m
              (Monitor.update_history V (Some m) g0))
    as (ws & L & W & _).
  cbv zeta in *. unfold Monitor.sleep. cbn [Monitor.last_warnings].
  split; [apply checks_warnings|]. rewrite W. split; [exact L|].
  split.
  - intros ->. simpl in L.
    destruct (gt _ ct), (gt _ mt), (gt _ dt); simpl in L; auto; discriminate.
  - intros (A & B & C). rewrite A, B, C in L. now destruct ws.
Qed.

(** X13. When [generate_plot] raises, the turn has already stored the
    new sample, but the warnings of the turn before stay on display;
    the error goes to the logger and the loop sleeps five seconds,
    whatever the interval. *)
Theorem X13_failed_plot_keeps_old_warnings {V : Type}
    (gt : V -> V -> bool) (show : V -> string) (ct mt dt : V) (interval : Z)
    (ticks : list (Monitor.tick V)) (t : Monitor.tick V)
    (m : Monitor.metrics V) (msg : string) :
  Monitor.sample V t = Some m -> Monitor.plot_does V t = Fails msg ->
  let g0 := Monitor.monitor_server V gt show ct mt dt interval ticks
              (Monitor.initial V) in
  let g := Monitor.monitor_server V gt show ct mt dt interval (ticks ++ [t])
             (Monitor.initial V) in
  Monitor.last_metrics V g = Some m
  /\ Monitor.last_warnings V g = Monitor.last_warnings V g0
  /\ Monitor.records V g =
     Monitor.records V g0
     ++ [(Monitor.ERROR, String.append "Monitoring error: " msg)]
  /\ Monitor.slept V g = Monitor.slept V g0 ++ [5%Z].
Proof.
  intros Hs Hp. cbv zeta. rewrite monitor_server_snoc.
  set (g0 := Monitor.monitor_server V gt show ct mt dt interval ticks
               (Monitor.initial V)).
  unfold Monitor.monitor_turn. rewrite Hs, Hp.
  unfold Monitor.sleep, Monitor.log_error, Monitor.update_history.
  destruct (_ >? _)%Z; repeat split.
Qed.

(** X12 on a first turn with the CPU at 90 against a threshold of 80. *)
Lemma X12_witness :
  let t := {| Monitor.sample := Some (sample_metrics 90 50 50);
              Monitor.plot_does := Done |} in
  Monitor.sample nat t = Some (sample_metrics 90 50 50)
  /\ Monitor.plot_does nat t = Done
  /\ List.length
       (Monitor.last_warnings nat
          (Monitor.monitor_server nat nat_gt nat_show 80 85 80 60
             ([] ++ [t]) (Monitor.initial nat)))
     = (if nat_gt 90 80 then 1 else 0) + (if nat_gt 50 85 then 1 else 0)
       + (if nat_gt 50 80 then 1 else 0).
Proof.
  split; [reflexivity|]. split; [reflexivity|].
  apply (X12_warnings_of_latest_sample nat_gt nat_show 80 85 80 60 []
           {| Monitor.sample := Some (sample_metrics 90 50 50);
              Monitor.plot_does := Done |}
           (sample_metrics 90 50 50) eq_refl eq_refl).
Defined.

(** X13 on a second turn whose plot fails after a first turn with a
    warning. *)
Lemma X13_witness :
  let t1 := {| Monitor.sample := Some (sample_metrics 90 50 50);
               Monitor.plot_does := Done |} in
  let t2 := {| Monitor.sample := Some (sample_metrics 10 10 10);
               Monitor.plot_does := Fails "disk full" |} in
  Monitor.sample nat t2 = Some (sample_metrics 10 10 10)
  /\ Monitor.plot_does nat t2 = Fails "disk full"
  /\ Monitor.last_metrics nat
       (Monitor.monitor_server nat nat_gt nat_show 80 85 80 60
          ([t1] ++ [t2]) (Monitor.initial nat))
     = Some (sample_metrics 10 10 10)
  /\ Monitor.last_warnings nat
       (Monitor.monitor_server nat nat_gt nat_show 80 85 80 60
          ([t1] ++ [t2]) (Monitor.initial nat))
     = Monitor.last_warnings nat
         (Monitor.monitor_server nat nat_gt nat_show 80 85 80 60
            [t1] (Monitor.initial nat)).
Proof.
  split; [reflexivity|]. split; [reflexivity|].
  pose proof (X13_failed_plot_keeps_old_warnings nat_gt nat_show 80 85 80 60
                [{| Monitor.sample := Some (sample_metrics 90 50 50);
                    Monitor.plot_does := Done |}]
                {| Monitor.sample := Some (sample_metrics 10 10 10);
                   Monitor.plot_does := Fails "disk full" |}
                (sample_metrics 10 10 10) "disk full" eq_refl eq_refl)
    as (A & B & _).
  split; [exact A | exact B].
Defined.

(** A run of [main] of admin_connection.py: one download, one session
    in which "ls" is entered, then "exit". *)
Lemma admin_main_run :
  let st := {| log := []; world := io_sample; ftp := [];
               client_closed := false |} in
  let turns :=
    [ {| typed_line := Line "download_file notes.txt /tmp/n";
         ftp_does := Done; shell_does := InvokeFails "" |};
      {| typed_line := Line "shell"; ftp_does := Done;
         shell_does := Session (keystrokes ("ls" ++ String CR "") ++ [key GS]) "" |};
      {| typed_line := Line " EXIT "; ftp_does := Done;
         shell_does := InvokeFails "" |} ] in
  let r := AdminMain.main decode_ascii raw_sample (Line "host") (Line "me")
             Done Done st turns in
  fst r = Finished
  /\ log (snd r) = ["downloaded /tmp/n to notes.txt"; "ls"]%string
  /\ ftp (snd r) = [Get "/tmp/n" "notes.txt"; FtpClose]
  /\ client_closed (snd r) = true.
Proof. repeat split. Qed.
